(** * File-meta support of the command line drivers (generic-driver.h)

    A shallow embedding of [src/generic-driver.h]: the [VlFileMeta]
    record, the option parser [vl_file_meta_parse], the stream life cycle
    [vl_file_meta_open] / [vl_file_meta_close] and the scalar codec
    [vl_file_meta_put_double], [vl_file_meta_put_uint8],
    [vl_file_meta_get_double].

    The C code threads its state through a pointer to the record and
    through the C library; here every operation takes the record (and the
    file system, where it is touched) and returns the new one. *)

From Stdlib Require Import ZArith List String Ascii Bool Lia DecimalString.
From stdpp Require Import base option gmap strings list.

Import ListNotations.
Local Open Scope string_scope.
Local Open Scope list_scope.
Local Open Scope Z_scope.

(** ** Constants of vl/generic.h and vl/stringop.h *)

(** Modelled from the spec: the error codes of vl/generic.h (the header is
    not among the files embedded here).  The spec's taxonomy is [Ok],
    [Overflow], [AllocError], [BadArgument], [IOError], [EndOfFile]; the
    functions below only ever return these constants, so the [int] they
    return is an enumeration. *)
Inductive vl_err : Set :=
| VL_ERR_OK
| VL_ERR_OVERFLOW
| VL_ERR_ALLOC
| VL_ERR_BAD_ARG
| VL_ERR_IO
| VL_ERR_EOF.

(** Modelled from the spec: the protocol identifiers of vl/stringop.h.  The
    field [protocol] is a C [int] and may hold any value, so the
    identifiers are integers; only their being pairwise distinct matters
    (they are the labels of one [switch]). *)
Definition VL_PROT_UNKNOWN : Z := -1.
Definition VL_PROT_NONE    : Z := 0.
Definition VL_PROT_ASCII   : Z := 1.
Definition VL_PROT_BINARY  : Z := 2.

(** ** Bytes, doubles and byte order *)

(** A C [char] / [vl_uint8]. *)
Abbreviation byte := ascii (only parsing).

Definition byte_of_Z (z : Z) : byte := ascii_of_N (Z.to_N (z mod 256)).
Definition Z_of_byte (b : byte) : Z := Z.of_N (N_of_ascii b).

(** A [double] is its IEEE-754 binary64 bit pattern: "bit-identical" is
    equality of these integers. *)
Abbreviation double := Z (only parsing).

Definition is_double (x : double) : Prop := 0 <= x < 2 ^ 64.

Inductive endianness : Set := LittleEndian | BigEndian.

Definition endianness_eqb (a b : endianness) : bool :=
  match a, b with
  | LittleEndian, LittleEndian | BigEndian, BigEndian => true
  | _, _ => false
  end.

(** The [n] low-order bytes of [v], least significant first. *)
Fixpoint le_bytes (n : nat) (v : Z) : list byte :=
  match n with
  | O => []
  | S k => byte_of_Z v :: le_bytes k (v / 256)
  end.

(** The integer whose bytes, least significant first, are [bs]. *)
Fixpoint le_value (bs : list byte) : Z :=
  match bs with
  | [] => 0
  | b :: r => Z_of_byte b + 256 * le_value r
  end.

(** The object representation of a [double] in the memory of a host:
    what [&x] points to. *)
Definition mem_of_double (host : endianness) (x : double) : list byte :=
  match host with
  | LittleEndian => le_bytes 8 x
  | BigEndian => rev (le_bytes 8 x)
  end.

Definition double_of_mem (host : endianness) (bs : list byte) : double :=
  match host with
  | LittleEndian => le_value bs
  | BigEndian => le_value (rev bs)
  end.

(** Modelled from the spec: the byte order of the binary wire format, "a
    single fixed wire byte order, chosen once and used consistently for
    both write and read". *)
Definition wire_order : endianness := BigEndian.

(** Modelled from the spec: [vl_adapt_endianness_8 (dst, src)] of
    vl/generic.h, which is not among the files embedded here.  It copies
    eight bytes from [src] to [dst], normalising between the host's byte
    order and the wire byte order: a verbatim copy on a host whose order is
    the wire order, the bytes reversed on the other. *)
Definition vl_adapt_endianness_8 (host : endianness) (src : list byte)
  : list byte :=
  if endianness_eqb host wire_order then src else rev src.

(** ** The interface of vl/stringop.h *)

(** Modelled from the spec: [vl_string_length] of vl/stringop.h, the
    length of a C string ([strlen]). *)
Definition vl_string_length (s : string) : Z := Z.of_nat (String.length s).

(** The text before and after the first colon of [s], if there is one. *)
Fixpoint split_colon (s : string) : option (string * string) :=
  match s with
  | EmptyString => None
  | String c r =>
      if Ascii.eqb c ":" then Some (EmptyString, r)
      else match split_colon r with
           | Some (p, q) => Some (String c p, q)
           | None => None
           end
  end.

(** Modelled from the spec: [vl_string_parse_protocol (string, &protocol)]
    of vl/stringop.h (section 4.1, ProtocolParser).  The result is the
    remainder of the string and the protocol: without a colon the whole
    string and "no protocol"; with the prefix [ascii:] or [binary:] the
    text after it and that protocol; with any other colon-delimited prefix
    the protocol is "unknown". *)
Definition vl_string_parse_protocol (s : string) : string * Z :=
  match split_colon s with
  | None => (s, VL_PROT_NONE)
  | Some (p, r) =>
      if String.eqb p "ascii" then (r, VL_PROT_ASCII)
      else if String.eqb p "binary" then (r, VL_PROT_BINARY)
      else (s, VL_PROT_UNKNOWN)
  end.

(** Modelled from the spec: [vl_string_copy (dst, n, src)] of
    vl/stringop.h, the "bounds-checked copy" of section 4.3.  It returns
    the buffer [dst] afterwards and the length of [src]; a source that does
    not fit a buffer of [n] bytes with its terminator is not copied ("no
    silent truncation"). *)
Definition vl_string_copy (dst : string) (n : Z) (src : string)
  : string * Z :=
  let q := vl_string_length src in
  if n <=? q then (dst, q) else (src, q).

(** Modelled from the spec: the substitution of section 4.2
    (FilenameTemplater): every occurrence of [wild] in the
    pattern is replaced with [repl], every other character is copied. *)
Fixpoint substitute (pat : string) (wild : ascii) (repl : string) : string :=
  match pat with
  | EmptyString => EmptyString
  | String c r =>
      if Ascii.eqb c wild then String.append repl (substitute r wild repl)
      else String c (substitute r wild repl)
  end.

(** Modelled from the spec: [vl_string_replace_wildcard (dst, n, src,
    wild, esc, repl)] of vl/stringop.h.  It returns the buffer [dst]
    afterwards and the length of the substituted text; a text that would
    reach the capacity [n] is not written.  The spec describes no escape
    character, and the only call passes NUL, which no C string contains:
    [esc] is not interpreted. *)
Definition vl_string_replace_wildcard
  (dst : string) (n : Z) (src : string) (wild esc : ascii) (repl : string)
  : string * Z :=
  let r := substitute src wild repl in
  let q := vl_string_length r in
  if n <=? q then (dst, q) else (r, q).

(** ** The C library: streams over a file system

    The file system maps a path to the bytes of the file.  A stream
    ([FILE]) records the path it was opened on, what its mode allows, its
    position and its two indicators.  Streams are unbuffered here: a write
    reaches the file at once. *)

Abbreviation filesystem := (gmap string (list byte)) (only parsing).

Record FILE : Type := mkFILE {
  f_path     : string;  (* the file the stream is open on *)
  f_readable : bool;    (* the mode allows input *)
  f_writable : bool;    (* the mode allows output *)
  f_append   : bool;    (* every write goes to the end of the file *)
  f_pos      : nat;     (* file position *)
  f_eof      : bool;    (* end-of-file indicator *)
  f_err      : bool     (* error indicator *)
}.

Definition set_err (f : FILE) : FILE :=
  mkFILE (f_path f) (f_readable f) (f_writable f) (f_append f)
         (f_pos f) (f_eof f) true.

Definition advance (f : FILE) (pos : nat) (eof : bool) : FILE :=
  mkFILE (f_path f) (f_readable f) (f_writable f) (f_append f)
         pos (f_eof f || eof) (f_err f).

(** A ['+'] in the mode opens the stream for update (input and output). *)
Fixpoint mode_update (m : string) : bool :=
  match m with
  | EmptyString => false
  | String c r => Ascii.eqb c "+" || mode_update r
  end.

(** Directories are entries of the file system too, as in the listing of
    an archive: a path that ends in ['/'] names a directory (its bytes
    mean nothing).  [dirname path] is the directory part of a path, up to
    and including its last ['/'], and empty when the path has none. *)
Fixpoint contains_slash (s : string) : bool :=
  match s with
  | EmptyString => false
  | String c r => Ascii.eqb c "/" || contains_slash r
  end.

Fixpoint dirname (path : string) : string :=
  match path with
  | EmptyString => EmptyString
  | String c r =>
      if Ascii.eqb c "/" || contains_slash r
      then String c (dirname r)
      else EmptyString
  end.

(** The directory [d] is there: the working directory (no directory
    part, or ["./"]) and the root always are, another one when the file
    system has its entry. *)
Definition directory_exists (fs : filesystem) (d : string) : bool :=
  String.eqb d "" || String.eqb d "./" || String.eqb d "/"
  || match fs !! d with Some _ => true | None => false end.

(** [fopen (path, mode)]: ["r"] needs an existing file; ["w"] creates or
    truncates the file and ["a"] creates it if need be, both in a directory
    that exists; the other characters of the mode (["b"], ["t"]) change
    nothing here.  The empty path and the path of a directory open no
    stream.  What else makes the system refuse (permissions, limits on
    names and on open files) is not part of this file system: a statement
    that needs a stream takes the success of the call as a hypothesis. *)
Definition fopen (fs : filesystem) (path mode : string)
  : option FILE * filesystem :=
  if String.eqb path "" || String.eqb (dirname path) path then (None, fs) else
  match mode with
  | String "r" m =>
      match fs !! path with
      | Some _ =>
          (Some (mkFILE path true (mode_update m) false 0 false false), fs)
      | None => (None, fs)
      end
  | String "w" m =>
      if directory_exists fs (dirname path) then
        (Some (mkFILE path (mode_update m) true false 0 false false),
         <[path := []]> fs)
      else (None, fs)
  | String "a" m =>
      if directory_exists fs (dirname path) then
        (Some (mkFILE path (mode_update m) true true 0 false false),
         match fs !! path with
         | Some _ => fs
         | None => <[path := []]> fs
         end)
      else (None, fs)
  | _ => (None, fs)
  end.

(** [fclose]: nothing is buffered, so the file system is as it was. *)
Definition fclose (f : FILE) (fs : filesystem) : filesystem := fs.

Definition feof (f : FILE) : bool := f_eof f.

(** The bytes of the file a stream is open on. *)
Definition file_data (fs : filesystem) (f : FILE) : list byte :=
  default [] (fs !! f_path f).

(** The bytes [bs] written at position [p] of the contents [c]; a position
    beyond the end leaves a gap of zero bytes. *)
Definition pwrite (p : nat) (bs c : list byte) : list byte :=
  take p c ++ repeat "000"%char (p - length c)%nat
         ++ bs ++ drop (p + length bs)%nat c.

(** Output of [bs] on a stream: [None] (and the error indicator) when the
    stream is not open for output. *)
Definition stream_write (bs : list byte) (f : FILE) (fs : filesystem)
  : option (FILE * filesystem) :=
  if f_writable f then
    let c := file_data fs f in
    let p := if f_append f then length c else f_pos f in
    Some (advance f (p + length bs)%nat false,
          <[f_path f := pwrite p bs c]> fs)
  else None.

(** [fwrite (ptr, size, 1, stream)] where [ptr] points to the [size] bytes
    [bs]: the number of items written, 1 or 0. *)
Definition fwrite (bs : list byte) (f : FILE) (fs : filesystem)
  : Z * FILE * filesystem :=
  match stream_write bs f fs with
  | Some (f', fs') => (1, f', fs')
  | None => (0, set_err f, fs)
  end.

(** [fprintf (stream, format, ...)] where the formatted text is [text]:
    the number of characters written, or a negative value. *)
Definition fprintf (text : list byte) (f : FILE) (fs : filesystem)
  : Z * FILE * filesystem :=
  match stream_write text f fs with
  | Some (f', fs') => (Z.of_nat (length text), f', fs')
  | None => (-1, set_err f, fs)
  end.

(** [fread (ptr, size, 1, stream)]: the number of items read (1 or 0), the
    bytes stored at [ptr] and the stream afterwards.  A short read consumes
    what is left and sets the end-of-file indicator; a stream that is not
    open for input gets its error indicator set. *)
Definition fread (size : nat) (f : FILE) (fs : filesystem)
  : Z * list byte * FILE :=
  if f_readable f then
    let avail := drop (f_pos f) (file_data fs f) in
    if (size <=? length avail)%nat
    then (1, take size avail, advance f (f_pos f + size)%nat false)
    else (0, avail, advance f (f_pos f + length avail)%nat true)
  else (0, [], set_err f).

(** [isspace] in the C locale. *)
Definition isspace (c : byte) : bool :=
  let n := N_of_ascii c in ((9 <=? n) && (n <=? 13) || (n =? 32))%N.

Fixpoint skip_space (bs : list byte) : list byte :=
  match bs with
  | c :: r => if isspace c then skip_space r else bs
  | [] => []
  end.

(** What the conversion of one floating-point token found: a value and the
    number of characters it took, or a mismatch after some characters. *)
Inductive scan_result : Type :=
| ScanMatch (v : double) (used : nat)
| ScanFail (used : nat).

(** The text of the decimal integer [n] (["%d"]). *)
Definition format_d (n : N) : list byte :=
  list_ascii_of_string (NilEmpty.string_of_uint (N.to_uint n)).

(** A platform is what the build and its C library fix: the host's byte
    order, and the conversions between a [double] and its decimal text
    (["%g"] of [fprintf], ["%lg"] of [fscanf]), which are left open. *)
Record platform : Type := mkPlatform {
  host      : endianness;
  format_g  : double -> list byte;
  scan_lg   : list byte -> scan_result
}.

(** [fscanf (stream, "%lg", &x)]: the number of items assigned (1, 0 on a
    matching failure, [EOF] = -1 on an input failure), the value assigned
    and the stream afterwards.  White space is skipped first; the
    end-of-file indicator is set when the input ran out. *)
Definition fscanf_lg (P : platform) (f : FILE) (fs : filesystem)
  : Z * option double * FILE :=
  if f_readable f then
    let avail := drop (f_pos f) (file_data fs f) in
    let rest := skip_space avail in
    let start := (f_pos f + (length avail - length rest))%nat in
    match rest with
    | [] => (-1, None, advance f start true)
    | _ =>
        match scan_lg P rest with
        | ScanMatch v used =>
            (1, Some v,
             advance f (start + used)%nat (length rest <=? used)%nat)
        | ScanFail used =>
            (0, None,
             advance f (start + used)%nat (length rest <=? used)%nat)
        end
    end
  else (-1, None, set_err f).

(** ** The file meta information *)

(** [struct _VlFileMeta].  The two character arrays hold C strings; their
    capacity, [sizeof (fm -> pattern)] = [sizeof (fm -> name)] = 1024, is
    checked by the code below.  [vl_bool] (vl/generic.h) is the spec's
    [bool].  [file] is [None] for the null pointer; the state of the stream
    it points to is kept with it, each handle owning its stream. *)
Record VlFileMeta : Type := mkFileMeta {
  active   : bool;         (* Is the file active? *)
  pattern  : string;       (* File name pattern *)
  protocol : Z;            (* File protocol *)
  name     : string;       (* Current file name *)
  file     : option FILE   (* Current file stream *)
}.

Definition set_active (fm : VlFileMeta) (a : bool) : VlFileMeta :=
  mkFileMeta a (pattern fm) (protocol fm) (name fm) (file fm).
Definition set_pattern (fm : VlFileMeta) (p : string) : VlFileMeta :=
  mkFileMeta (active fm) p (protocol fm) (name fm) (file fm).
Definition set_protocol (fm : VlFileMeta) (p : Z) : VlFileMeta :=
  mkFileMeta (active fm) (pattern fm) p (name fm) (file fm).
Definition set_name (fm : VlFileMeta) (n : string) : VlFileMeta :=
  mkFileMeta (active fm) (pattern fm) (protocol fm) n (file fm).
Definition set_file (fm : VlFileMeta) (f : option FILE) : VlFileMeta :=
  mkFileMeta (active fm) (pattern fm) (protocol fm) (name fm) f.

(** [sizeof (fm -> pattern)] and [sizeof (fm -> name)].  The lengths
    compared with it are non-negative, so the comparison of the [int] with
    the [size_t] is the comparison of the integers. *)
Definition capacity : Z := 1024.

(** [vl_file_meta_parse (fm, optarg)]; [optarg] is [None] for the null
    pointer.  The result is the error code and the record afterwards. *)
Definition vl_file_meta_parse (fm : VlFileMeta) (optarg : option string)
  : vl_err * VlFileMeta :=
  let fm := set_active fm true in
  match optarg with
  | Some optarg =>
      let '(arg, protocol) := vl_string_parse_protocol optarg in
      (* parse the (optional) protocol part *)
      if protocol =? VL_PROT_UNKNOWN then (VL_ERR_BAD_ARG, fm)
      else
        let fm :=
          if (protocol =? VL_PROT_ASCII) || (protocol =? VL_PROT_BINARY)
          then set_protocol fm protocol
          else fm in
        if 0 <? vl_string_length arg then
          let '(buf, q) := vl_string_copy (pattern fm) capacity arg in
          let fm := set_pattern fm buf in
          if capacity <=? q then (VL_ERR_OVERFLOW, fm) else (VL_ERR_OK, fm)
        else (VL_ERR_OK, fm)
  | None => (VL_ERR_OK, fm)
  end.

(** [vl_file_meta_open (fm, basename, mode)]: the error code, the record
    and the file system afterwards. *)
Definition vl_file_meta_open
  (fm : VlFileMeta) (basename mode : string) (fs : filesystem)
  : vl_err * VlFileMeta * filesystem :=
  if negb (active fm) then (VL_ERR_OK, fm, fs)
  else
    let '(buf, q) :=
      vl_string_replace_wildcard (name fm) capacity (pattern fm)
                                 "%" "000" basename in
    let fm := set_name fm buf in
    if capacity <=? q then (VL_ERR_OVERFLOW, fm, fs)
    else if active fm then
      let '(f, fs') := fopen fs (name fm) mode in
      let fm := set_file fm f in
      match f with
      | None => (VL_ERR_IO, fm, fs')
      | Some _ => (VL_ERR_OK, fm, fs')
      end
    else (VL_ERR_OK, fm, fs).

(** [vl_file_meta_close (fm)]. *)
Definition vl_file_meta_close (fm : VlFileMeta) (fs : filesystem)
  : VlFileMeta * filesystem :=
  match file fm with
  | Some f => (set_file fm None, fclose f fs)
  | None => (fm, fs)
  end.

(** ** The scalar codec *)

(** How a call of the codec ends: it returns, or [assert (0)] aborts the
    program (assertions are enabled), or the stream pointer handed to the
    C library is null, which the C standard leaves undefined. *)
Inductive outcome (A : Type) : Type :=
| Returned (a : A)
| AssertFailed
| Undefined.

Arguments Returned {A} a.
Arguments AssertFailed {A}.
Arguments Undefined {A}.

(** [err ? VL_ERR_ALLOC : VL_ERR_OK]. *)
Definition alloc_if (err : Z) : vl_err :=
  if err =? 0 then VL_ERR_OK else VL_ERR_ALLOC.

(** [vl_file_meta_put_double (fm, x)]: the error code, the record and the
    file system afterwards. *)
Definition vl_file_meta_put_double
  (P : platform) (fm : VlFileMeta) (x : double) (fs : filesystem)
  : outcome (vl_err * VlFileMeta * filesystem) :=
  if protocol fm =? VL_PROT_ASCII then
    match file fm with
    | Some f =>
        let '(err, f', fs') := fprintf (format_g P x ++ [" "%char]) f fs in
        Returned (alloc_if err, set_file fm (Some f'), fs')
    | None => Undefined
    end
  else if protocol fm =? VL_PROT_BINARY then
    let y := vl_adapt_endianness_8 (host P) (mem_of_double (host P) x) in
    match file fm with
    | Some f =>
        let '(err, f', fs') := fwrite y f fs in
        Returned (alloc_if err, set_file fm (Some f'), fs')
    | None => Undefined
    end
  else AssertFailed.

(** [vl_file_meta_put_uint8 (fm, x)]. *)
Definition vl_file_meta_put_uint8
  (fm : VlFileMeta) (x : byte) (fs : filesystem)
  : outcome (vl_err * VlFileMeta * filesystem) :=
  if protocol fm =? VL_PROT_ASCII then
    match file fm with
    | Some f =>
        let '(err, f', fs') :=
          fprintf (format_d (N_of_ascii x) ++ [" "%char]) f fs in
        Returned (alloc_if err, set_file fm (Some f'), fs')
    | None => Undefined
    end
  else if protocol fm =? VL_PROT_BINARY then
    match file fm with
    | Some f =>
        let '(err, f', fs') := fwrite [x] f fs in
        Returned (alloc_if err, set_file fm (Some f'), fs')
    | None => Undefined
    end
  else AssertFailed.

(** The end of [vl_file_meta_get_double]: [err] tells that the read
    failed, [f] is the stream after it. *)
Definition eof_or_bad_arg (err : bool) (f : FILE) : vl_err :=
  if err then
    if feof f then VL_ERR_EOF else VL_ERR_BAD_ARG
  else VL_ERR_OK.

(** [vl_file_meta_get_double (fm, &x)]: the error code, the datum stored
    in [x] and the record afterwards.  The datum is [None] when the read
    failed: [fscanf] then stores nothing, and the binary branch converts a
    buffer that [fread] did not fill. *)
Definition vl_file_meta_get_double
  (P : platform) (fm : VlFileMeta) (fs : filesystem)
  : outcome (vl_err * option double * VlFileMeta) :=
  if protocol fm =? VL_PROT_ASCII then
    match file fm with
    | Some f =>
        let '(n, x, f') := fscanf_lg P f fs in
        let err := n <? 1 in
        Returned (eof_or_bad_arg err f', x, set_file fm (Some f'))
    | None => Undefined
    end
  else if protocol fm =? VL_PROT_BINARY then
    match file fm with
    | Some f =>
        let '(n, y, f') := fread 8 f fs in
        let err := n <? 1 in
        let x := double_of_mem (host P) (vl_adapt_endianness_8 (host P) y) in
        Returned (eof_or_bad_arg err f',
                  if err then None else Some x,
                  set_file fm (Some f'))
    | None => Undefined
    end
  else AssertFailed.

(** ** Option strings *)

(** The option grammar [[protocolName ":"] pattern] with [protocolName]
    one of [ascii], [binary], and a pattern that fits the buffer. *)
Definition valid_option (s : string) : bool :=
  match split_colon s with
  | None => (String.length s <? 1024)%nat
  | Some (p, r) =>
      (String.eqb p "ascii" || String.eqb p "binary")
      && (String.length r <? 1024)%nat
  end.

(** The string [s] starts with the text [p]. *)
Fixpoint starts_with (p s : string) : bool :=
  match p, s with
  | EmptyString, _ => true
  | String a p', String b s' => Ascii.eqb a b && starts_with p' s'
  | String _ _, EmptyString => false
  end.

(** The option string starts with a recognised protocol prefix. *)
Definition has_protocol_prefix (s : string) : bool :=
  starts_with "ascii:" s || starts_with "binary:" s.

(** The string of [n] characters [c]. *)
Fixpoint string_repeat (c : ascii) (n : nat) : string :=
  match n with
  | O => EmptyString
  | S k => String c (string_repeat c k)
  end.

(** ** Auxiliary notions *)

(** The bytes [vl_file_meta_put_double] hands to [fwrite]: the datum in
    the wire byte order. *)
Definition wire_bytes (P : platform) (x : Z) : list ascii :=
  vl_adapt_endianness_8 (host P) (mem_of_double (host P) x).

(** An inactive entity holds no stream. *)
Definition inactive_streamless (fm : VlFileMeta) : Prop :=
  active fm = false -> file fm = None.

(** ** Driving the codec *)

(** A driver loop writing the data [xs] one after the other; like the
    loop, it stops when a call does not return. The error codes are
    collected. *)
Fixpoint put_doubles
  (P : platform) (fm : VlFileMeta) (xs : list double) (fs : filesystem)
  : outcome (list vl_err * VlFileMeta * filesystem) :=
  match xs with
  | [] => Returned ([], fm, fs)
  | x :: r =>
      match vl_file_meta_put_double P fm x fs with
      | Returned (e, fm', fs') =>
          match put_doubles P fm' r fs' with
          | Returned (es, fm'', fs'') => Returned (e :: es, fm'', fs'')
          | AssertFailed => AssertFailed
          | Undefined => Undefined
          end
      | AssertFailed => AssertFailed
      | Undefined => Undefined
      end
  end.

(** A driver loop reading [n] data; the error code and the datum of every
    call are collected. *)
Fixpoint get_doubles
  (P : platform) (n : nat) (fm : VlFileMeta) (fs : filesystem)
  : outcome (list (vl_err * option double) * VlFileMeta) :=
  match n with
  | O => Returned ([], fm)
  | S k =>
      match vl_file_meta_get_double P fm fs with
      | Returned (e, x, fm') =>
          match get_doubles P k fm' fs with
          | Returned (rs, fm'') => Returned ((e, x) :: rs, fm'')
          | AssertFailed => AssertFailed
          | Undefined => Undefined
          end
      | AssertFailed => AssertFailed
      | Undefined => Undefined
      end
  end.

(** Writing [xs] through the handle [fmW] on a host [Pw] and closing it:
    the error code of the [open] call and the file system afterwards. *)
Definition write_doubles
  (Pw : platform) (fmW : VlFileMeta) (basename : string)
  (xs : list double) (fs : filesystem)
  : outcome (vl_err * filesystem) :=
  let '(e1, fmW1, fs1) := vl_file_meta_open fmW basename "wb" fs in
  match put_doubles Pw fmW1 xs fs1 with
  | Returned (_, fmW2, fs2) =>
      let '(_, fs3) := vl_file_meta_close fmW2 fs2 in
      Returned (e1, fs3)
  | AssertFailed => AssertFailed
  | Undefined => Undefined
  end.

(** Reading [n] data through the handle [fmR], opened afresh, on a host
    [Pr]: the error code of the [open] call and what the reads
    delivered. *)
Definition read_doubles
  (Pr : platform) (fmR : VlFileMeta) (basename : string)
  (n : nat) (fs : filesystem)
  : outcome (vl_err * list (vl_err * option double)) :=
  let '(e2, fmR1, fs1) := vl_file_meta_open fmR basename "rb" fs in
  match get_doubles Pr n fmR1 fs1 with
  | Returned (rs, _) => Returned (e2, rs)
  | AssertFailed => AssertFailed
  | Undefined => Undefined
  end.

(** The two in a row: writing [xs], then reading [length xs] data back
    from the same file. *)
Definition write_then_read
  (Pw Pr : platform) (fmW fmR : VlFileMeta) (basename : string)
  (xs : list double) (fs : filesystem)
  : outcome (vl_err * vl_err * list (vl_err * option double)) :=
  match write_doubles Pw fmW basename xs fs with
  | Returned (e1, fs3) =>
      match read_doubles Pr fmR basename (length xs) fs3 with
      | Returned (e2, rs) => Returned (e1, e2, rs)
      | AssertFailed => AssertFailed
      | Undefined => Undefined
      end
  | AssertFailed => AssertFailed
  | Undefined => Undefined
  end.

(** ** Sample data *)

(** A little-endian and a big-endian platform for running the binary
    protocol on concrete data.  The binary protocol calls neither text
    conversion, and these two platforms provide none: every statement about
    the ascii protocol below is about an arbitrary platform instead. *)
Definition little_host : platform :=
  mkPlatform LittleEndian (fun _ => []) (fun _ => ScanFail 0).
Definition big_host : platform :=
  mkPlatform BigEndian (fun _ => []) (fun _ => ScanFail 0).

(** An entity that was never configured. *)
Definition fm_inactive : VlFileMeta :=
  mkFileMeta false "%.frame" VL_PROT_ASCII "" None.

(** A configured entity for binary descriptors. *)
Definition fm_binary : VlFileMeta :=
  mkFileMeta true "%.descr" VL_PROT_BINARY "" None.

(** A stream open for output on [img.descr], and one open for input. *)
Definition out_stream : FILE :=
  mkFILE "img.descr" false true false 0 false false.
Definition in_stream : FILE :=
  mkFILE "img.descr" true false false 0 false false.

(** The bit patterns of the doubles 1.0 and -2.0. *)
Definition one : double := 0x3FF0000000000000.
Definition minus_two : double := 0xC000000000000000.

(** A file system holding the empty file [img.descr]. *)
Definition fs_img : gmap string (list ascii) := {[ "img.descr" := [] ]}.

(** The binary entity with its stream open for output, and for input. *)
Definition fm_writing : VlFileMeta := set_file fm_binary (Some out_stream).
Definition fm_reading : VlFileMeta := set_file fm_binary (Some in_stream).

(** A binary entity whose pattern names a directory. *)
Definition fm_nodir : VlFileMeta :=
  mkFileMeta true "nodir/%.descr" VL_PROT_BINARY "" None.

(** An entity without a protocol. *)
Definition fm_no_protocol : VlFileMeta :=
  mkFileMeta true "%.descr" VL_PROT_NONE "" (Some out_stream).

(** ** Sequences of life-cycle operations *)

(** What a driver does to an entity between its set-up and its end: it
    parses an option, opens the stream for a basename, or closes it. *)
Inductive fm_op : Type :=
| OpParse (optarg : option string)
| OpOpen (basename mode : string)
| OpClose.

(** One operation on an entity and the file system; the error code is
    dropped. *)
Definition run_op (o : fm_op) (st : VlFileMeta * gmap string (list ascii))
  : VlFileMeta * gmap string (list ascii) :=
  match o with
  | OpParse optarg => (snd (vl_file_meta_parse (fst st) optarg), snd st)
  | OpOpen basename mode =>
      let r := vl_file_meta_open (fst st) basename mode (snd st) in
      (snd (fst r), snd r)
  | OpClose => vl_file_meta_close (fst st) (snd st)
  end.

Definition run_ops (ops : list fm_op) (st : VlFileMeta * gmap string (list ascii))
  : VlFileMeta * gmap string (list ascii) :=
  fold_left (fun s o => run_op o s) ops st.

(** A driver loop writing the bytes [bs] one after the other. *)
Fixpoint put_bytes
  (fm : VlFileMeta) (bs : list ascii) (fs : gmap string (list ascii))
  : outcome (list vl_err * VlFileMeta * gmap string (list ascii)) :=
  match bs with
  | [] => Returned ([], fm, fs)
  | b :: r =>
      match vl_file_meta_put_uint8 fm b fs with
      | Returned (e, fm', fs') =>
          match put_bytes fm' r fs' with
          | Returned (es, fm'', fs'') => Returned (e :: es, fm'', fs'')
          | AssertFailed => AssertFailed
          | Undefined => Undefined
          end
      | AssertFailed => AssertFailed
      | Undefined => Undefined
      end
  end.

(** What a put may touch: when it returns, the configuration of the
    entity is as before, the entity still holds its stream, open on the
    same file with the same mode, and every other file is as before. *)
Definition touches_only_stream
  (fm : VlFileMeta) (fs : gmap string (list ascii))
  (r : outcome (vl_err * VlFileMeta * gmap string (list ascii))) : Prop :=
  match r with
  | Returned (_, fm', fs') =>
      active fm' = active fm /\ pattern fm' = pattern fm /\
      protocol fm' = protocol fm /\ name fm' = name fm /\
      exists f f',
        file fm = Some f /\ file fm' = Some f' /\
        f_path f' = f_path f /\ f_readable f' = f_readable f /\
        f_writable f' = f_writable f /\ f_append f' = f_append f /\
        (forall p : string, p <> f_path f -> fs' !! p = fs !! p) /\
        (f_writable f = false -> fs' = fs)
  | AssertFailed | Undefined => True
  end.

(** * Properties *)

(** ** Strings *)

Lemma append_String (c : ascii) (p q : string) :
  String.append (String c p) q = String c (String.append p q).
Proof. reflexivity. Qed.

Lemma split_colon_Some (s p r : string) :
  split_colon s = Some (p, r) -> s = String.append p (String ":" r).
Proof.
  revert p r; induction s as [|c s IH]; intros p r; simpl; [discriminate|].
  destruct (Ascii.eqb_spec c ":") as [->|_].
  - intros [= <- <-]; reflexivity.
  - destruct (split_colon s) as [[p' r']|]; [|discriminate].
    intros [= <- <-]; rewrite append_String; f_equal; apply IH; reflexivity.
Qed.

Lemma split_colon_prefixed (p r : string) :
  split_colon p = None ->
  split_colon (String.append p (String ":" r)) = Some (p, r).
Proof.
  induction p as [|c p IH]; [reflexivity|].
  rewrite append_String; simpl.
  destruct (Ascii.eqb c ":"); [discriminate|].
  destruct (split_colon p) as [[p' r']|] eqn:Hp; [discriminate|].
  intros _; rewrite IH; reflexivity.
Qed.

Lemma vl_string_length_pos (s : string) :
  (0 <? vl_string_length s) = false -> s = EmptyString.
Proof.
  destruct s; [reflexivity|].
  unfold vl_string_length; simpl; intros H.
  apply Z.ltb_ge in H; lia.
Qed.

(** The parser on a string without a colon, and on the two prefixes. *)
Lemma parse_protocol_no_colon (s : string) :
  split_colon s = None -> vl_string_parse_protocol s = (s, VL_PROT_NONE).
Proof. unfold vl_string_parse_protocol; intros ->; reflexivity. Qed.

Lemma parse_protocol_ascii (r : string) :
  vl_string_parse_protocol (String.append "ascii:" r) = (r, VL_PROT_ASCII).
Proof. reflexivity. Qed.

Lemma parse_protocol_binary (r : string) :
  vl_string_parse_protocol (String.append "binary:" r) = (r, VL_PROT_BINARY).
Proof. reflexivity. Qed.

(** A valid option string without a recognised prefix has no colon. *)
Lemma valid_option_no_prefix (s : string) :
  valid_option s = true -> has_protocol_prefix s = false ->
  split_colon s = None /\ (String.length s < 1024)%nat.
Proof.
  unfold valid_option, has_protocol_prefix; intros Hv Hp.
  destruct (split_colon s) as [[p r]|] eqn:Hs.
  - apply split_colon_Some in Hs; subst s.
    apply andb_true_iff in Hv as [Hv _].
    apply orb_true_iff in Hv as [Hv|Hv]; apply String.eqb_eq in Hv; subst p;
      cbv in Hp; discriminate.
  - split; [reflexivity|]. apply Nat.ltb_lt in Hv; exact Hv.
Qed.

(** ** [vl_file_meta_parse] *)

(** The code and the record after parsing a string whose remainder is
    [arg] and whose protocol is [prot]. *)
Lemma parse_unfold (fm : VlFileMeta) (s arg : string) (prot : Z) :
  vl_string_parse_protocol s = (arg, prot) ->
  vl_file_meta_parse fm (Some s) =
    if prot =? VL_PROT_UNKNOWN then (VL_ERR_BAD_ARG, set_active fm true)
    else
      let fm1 :=
        if (prot =? VL_PROT_ASCII) || (prot =? VL_PROT_BINARY)
        then set_protocol (set_active fm true) prot
        else set_active fm true in
      if 0 <? vl_string_length arg then
        if capacity <=? vl_string_length arg
        then (VL_ERR_OVERFLOW, fm1)
        else (VL_ERR_OK, set_pattern fm1 arg)
      else (VL_ERR_OK, fm1).
Proof.
  intros H; unfold vl_file_meta_parse; rewrite H.
  destruct (prot =? VL_PROT_UNKNOWN); [reflexivity|].
  cbv zeta.
  destruct (0 <? vl_string_length arg); [|reflexivity].
  unfold vl_string_copy; cbv zeta.
  destruct (capacity <=? vl_string_length arg) eqn:Hc; rewrite ?Hc.
  - destruct ((prot =? VL_PROT_ASCII) || (prot =? VL_PROT_BINARY));
      reflexivity.
  - reflexivity.
Qed.

(** C10. Parsing a null option string sets [active], returns
    [VL_ERR_OK] and leaves the protocol and the pattern (and the name and
    the stream) as they were. *)
Theorem parse_null_option (fm : VlFileMeta) :
  let r := vl_file_meta_parse fm None in
  fst r = VL_ERR_OK /\
  active (snd r) = true /\
  protocol (snd r) = protocol fm /\
  pattern (snd r) = pattern fm /\
  name (snd r) = name fm /\
  file (snd r) = file fm.
Proof. simpl; repeat split; reflexivity. Qed.

(** The record after a parse is active, whatever the outcome. *)
Lemma parse_active (fm : VlFileMeta) (optarg : option string) :
  active (snd (vl_file_meta_parse fm optarg)) = true.
Proof.
  destruct optarg as [s|]; [|reflexivity].
  destruct (vl_string_parse_protocol s) as [arg prot] eqn:Hp.
  rewrite (parse_unfold fm s arg prot Hp).
  destruct (prot =? VL_PROT_UNKNOWN); [reflexivity|]; cbv zeta.
  destruct ((prot =? VL_PROT_ASCII) || (prot =? VL_PROT_BINARY)),
    (0 <? vl_string_length arg), (capacity <=? vl_string_length arg);
    reflexivity.
Qed.

(** C2, as the code has it. When parsing an option string fails, the
    entity is active all the same (the flag is set before the string is
    looked at) and its pattern, name and stream are unchanged; the protocol
    is unchanged when the failure is [VL_ERR_BAD_ARG], and when it is
    [VL_ERR_OVERFLOW] it is already that of a recognised prefix (unchanged
    without one). *)
Theorem parse_failure_state (fm : VlFileMeta) (s : string) :
  let r := vl_file_meta_parse fm (Some s) in
  let prot := snd (vl_string_parse_protocol s) in
  fst r <> VL_ERR_OK ->
  active (snd r) = true /\
  pattern (snd r) = pattern fm /\
  name (snd r) = name fm /\
  file (snd r) = file fm /\
  ((fst r = VL_ERR_BAD_ARG /\ protocol (snd r) = protocol fm) \/
   (fst r = VL_ERR_OVERFLOW /\
    protocol (snd r) =
      if (prot =? VL_PROT_ASCII) || (prot =? VL_PROT_BINARY)
      then prot else protocol fm)).
Proof.
  cbv zeta.
  destruct (vl_string_parse_protocol s) as [arg prot] eqn:Hp.
  rewrite (parse_unfold fm s arg prot Hp); simpl snd at 1.
  destruct (prot =? VL_PROT_UNKNOWN).
  - intros _; simpl; repeat split; left; split; reflexivity.
  - cbv zeta.
    destruct (0 <? vl_string_length arg);
      [destruct (capacity <=? vl_string_length arg)|].
    + intros _; simpl.
      destruct ((prot =? VL_PROT_ASCII) || (prot =? VL_PROT_BINARY));
        repeat split; right; split; reflexivity.
    + intros H; exfalso; apply H; reflexivity.
    + intros H; exfalso; apply H; reflexivity.
Qed.

Lemma parse_failure_state_witness :
  fst (vl_file_meta_parse fm_inactive (Some "xml:foo")) <> VL_ERR_OK /\
  active (snd (vl_file_meta_parse fm_inactive (Some "xml:foo"))) = true.
Proof.
  assert (H : fst (vl_file_meta_parse fm_inactive (Some "xml:foo"))
              <> VL_ERR_OK) by (vm_compute; discriminate).
  split; [exact H|].
  exact (proj1 (parse_failure_state fm_inactive "xml:foo" H)).
Defined.

(** C2, as the claim states it, fails. A rejected protocol token leaves an
    inactive entity active, and an over-long pattern after a recognised
    prefix leaves the protocol overwritten. *)
Lemma parse_failure_changes_state :
  (active fm_inactive = false /\
   vl_file_meta_parse fm_inactive (Some "xml:foo")
     = (VL_ERR_BAD_ARG, set_active fm_inactive true) /\
   active (set_active fm_inactive true) = true) /\
  (protocol fm_inactive = VL_PROT_ASCII /\
   vl_file_meta_parse fm_inactive
       (Some (String.append "binary:" (string_repeat "a" 1024)))
     = (VL_ERR_OVERFLOW,
        set_protocol (set_active fm_inactive true) VL_PROT_BINARY)).
Proof. vm_compute; repeat split; reflexivity. Qed.

(** C6. A valid option string without a recognised protocol prefix is
    parsed with success and leaves the protocol as it was; the prefix
    [ascii:] or [binary:] sets the protocol it names (and the parse
    succeeds when the pattern after it fits the buffer). *)
Theorem parse_protocol_field (fm : VlFileMeta) :
  (forall s : string,
      valid_option s = true -> has_protocol_prefix s = false ->
      fst (vl_file_meta_parse fm (Some s)) = VL_ERR_OK /\
      protocol (snd (vl_file_meta_parse fm (Some s))) = protocol fm) /\
  (forall r : string,
      let res := vl_file_meta_parse fm (Some (String.append "ascii:" r)) in
      protocol (snd res) = VL_PROT_ASCII /\
      ((String.length r < 1024)%nat -> fst res = VL_ERR_OK)) /\
  (forall r : string,
      let res := vl_file_meta_parse fm (Some (String.append "binary:" r)) in
      protocol (snd res) = VL_PROT_BINARY /\
      ((String.length r < 1024)%nat -> fst res = VL_ERR_OK)).
Proof.
  split; [|split].
  - intros s Hv Hp.
    destruct (valid_option_no_prefix s Hv Hp) as [Hc Hl].
    rewrite (parse_unfold fm s s VL_PROT_NONE (parse_protocol_no_colon s Hc)).
    simpl. destruct (0 <? vl_string_length s); [|split; reflexivity].
    destruct (capacity <=? vl_string_length s) eqn:Hq; [|split; reflexivity].
    apply Z.leb_le in Hq; unfold capacity, vl_string_length in Hq; lia.
  - intros r; cbv zeta.
    rewrite (parse_unfold fm _ r VL_PROT_ASCII (parse_protocol_ascii r)).
    simpl. destruct (0 <? vl_string_length r); [|split; reflexivity].
    destruct (capacity <=? vl_string_length r) eqn:Hq; split;
      try reflexivity.
    apply Z.leb_le in Hq; unfold capacity, vl_string_length in Hq; lia.
  - intros r; cbv zeta.
    rewrite (parse_unfold fm _ r VL_PROT_BINARY (parse_protocol_binary r)).
    simpl. destruct (0 <? vl_string_length r); [|split; reflexivity].
    destruct (capacity <=? vl_string_length r) eqn:Hq; split;
      try reflexivity.
    apply Z.leb_le in Hq; unfold capacity, vl_string_length in Hq; lia.
Qed.

Lemma parse_protocol_field_witness :
  valid_option "%.sift" = true /\
  has_protocol_prefix "%.sift" = false /\
  fst (vl_file_meta_parse fm_binary (Some "%.sift")) = VL_ERR_OK /\
  protocol (snd (vl_file_meta_parse fm_binary (Some "%.sift")))
    = protocol fm_binary.
Proof.
  split; [reflexivity|]. split; [reflexivity|].
  exact (proj1 (parse_protocol_field fm_binary) "%.sift" eq_refl eq_refl).
Defined.

(** C7, as the code has it. After a successful parse the pattern is the
    remainder of the option string after the optional protocol prefix when
    that remainder is not empty, and it then fits the buffer; an empty
    remainder leaves the pattern as it was. *)
Theorem parse_stores_pattern (fm : VlFileMeta) (s : string) :
  let r := vl_file_meta_parse fm (Some s) in
  let arg := fst (vl_string_parse_protocol s) in
  fst r = VL_ERR_OK ->
  pattern (snd r) = (if String.eqb arg "" then pattern fm else arg) /\
  (String.length arg < 1024)%nat.
Proof.
  cbv zeta.
  destruct (vl_string_parse_protocol s) as [arg prot] eqn:Hp.
  rewrite (parse_unfold fm s arg prot Hp); simpl fst at 2 3 4.
  destruct (prot =? VL_PROT_UNKNOWN); [discriminate|]; cbv zeta.
  destruct (0 <? vl_string_length arg) eqn:Hn.
  - destruct (capacity <=? vl_string_length arg) eqn:Hq; [discriminate|].
    intros _. apply Z.leb_gt in Hq. apply Z.ltb_lt in Hn.
    unfold capacity, vl_string_length in *.
    destruct arg as [|c arg]; [simpl in Hn; lia|].
    split; [reflexivity|lia].
  - intros _. apply vl_string_length_pos in Hn; subst arg.
    split; [|simpl; lia].
    destruct ((prot =? VL_PROT_ASCII) || (prot =? VL_PROT_BINARY));
      reflexivity.
Qed.

Lemma parse_stores_pattern_witness :
  fst (vl_file_meta_parse fm_inactive (Some "binary:%.descr")) = VL_ERR_OK /\
  pattern (snd (vl_file_meta_parse fm_inactive (Some "binary:%.descr")))
    = "%.descr".
Proof.
  split; [reflexivity|].
  exact (proj1 (parse_stores_pattern fm_inactive "binary:%.descr" eq_refl)).
Defined.

(** C7, as the claim states it, fails on an empty remainder, with or
    without a protocol prefix before it: the pattern keeps its former
    value and is not the (empty) remainder. *)
Lemma parse_empty_remainder_keeps_pattern :
  (fst (vl_string_parse_protocol "ascii:") = "" /\
   fst (vl_file_meta_parse fm_inactive (Some "ascii:")) = VL_ERR_OK /\
   pattern (snd (vl_file_meta_parse fm_inactive (Some "ascii:")))
     = "%.frame") /\
  (fst (vl_string_parse_protocol "") = "" /\
   fst (vl_file_meta_parse fm_inactive (Some "")) = VL_ERR_OK /\
   pattern (snd (vl_file_meta_parse fm_inactive (Some ""))) = "%.frame").
Proof. repeat split; reflexivity. Qed.

(** ** [vl_file_meta_open] and [vl_file_meta_close] *)

Lemma set_name_same (fm : VlFileMeta) : set_name fm (name fm) = fm.
Proof. destruct fm; reflexivity. Qed.

(** C3. On an active entity whose pattern resolves, for the basename, to a
    name of 1024 characters or more, [open] returns [VL_ERR_OVERFLOW]; the
    file system is as before (nothing is created) and so is the entity (no
    stream is opened). *)
Theorem open_overflow
  (fm : VlFileMeta) (basename mode : string) (fs : gmap string (list ascii)) :
  active fm = true ->
  (1024 <= String.length (substitute (pattern fm) "%" basename))%nat ->
  vl_file_meta_open fm basename mode fs = (VL_ERR_OVERFLOW, fm, fs).
Proof.
  intros Ha Hl. unfold vl_file_meta_open, vl_string_replace_wildcard.
  rewrite Ha; simpl negb; cbv iota zeta.
  assert (Hq : (capacity <=?
               vl_string_length (substitute (pattern fm) "%" basename)) = true).
  { apply Z.leb_le; unfold capacity, vl_string_length; lia. }
  rewrite Hq; cbv beta iota zeta.
  rewrite set_name_same, Hq; reflexivity.
Qed.

Lemma open_overflow_witness :
  active fm_binary = true /\
  (1024 <= String.length
             (substitute (pattern fm_binary) "%" (string_repeat "x" 1024)))%nat
  /\ vl_file_meta_open fm_binary (string_repeat "x" 1024) "wb" fs_img
     = (VL_ERR_OVERFLOW, fm_binary, fs_img).
Proof.
  assert (Hl : (1024 <= String.length
             (substitute (pattern fm_binary) "%" (string_repeat "x" 1024)))%nat)
    by (apply Nat.leb_le; vm_compute; reflexivity).
  split; [reflexivity|]. split; [exact Hl|].
  exact (open_overflow fm_binary (string_repeat "x" 1024) "wb" fs_img
           eq_refl Hl).
Defined.

(** C8. On every inactive entity (one that, being inactive, holds no
    stream: the state the operations keep it in) [open] returns
    [VL_ERR_OK] whatever the basename and the mode, [close] returns, and
    neither changes the entity or the file system: no file system action,
    the name and the stream field as before. *)
Theorem inactive_open_close
  (fm : VlFileMeta) (basename mode : string) (fs : gmap string (list ascii)) :
  active fm = false ->
  inactive_streamless fm ->
  vl_file_meta_open fm basename mode fs = (VL_ERR_OK, fm, fs) /\
  vl_file_meta_close fm fs = (fm, fs).
Proof.
  intros Ha Hinv; split.
  - unfold vl_file_meta_open; rewrite Ha; reflexivity.
  - unfold vl_file_meta_close; rewrite (Hinv Ha); reflexivity.
Qed.

Lemma inactive_open_close_witness :
  active fm_inactive = false /\
  inactive_streamless fm_inactive /\
  vl_file_meta_open fm_inactive "img" "wb" fs_img
    = (VL_ERR_OK, fm_inactive, fs_img) /\
  vl_file_meta_close fm_inactive fs_img = (fm_inactive, fs_img).
Proof.
  assert (Hinv : inactive_streamless fm_inactive) by (intros _; reflexivity).
  split; [reflexivity|]. split; [exact Hinv|].
  exact (inactive_open_close fm_inactive "img" "wb" fs_img eq_refl Hinv).
Defined.

(** [close] is governed by the stream alone: it empties the stream field
    and touches nothing else, and a second [close] does nothing. *)
Lemma close_releases (fm : VlFileMeta) (fs : gmap string (list ascii)) :
  vl_file_meta_close fm fs = (set_file fm None, fs).
Proof.
  unfold vl_file_meta_close, fclose.
  destruct fm as [a p pr n [f|]]; reflexivity.
Qed.

(** An inactive entity holds no stream: the three operations keep this,
    so that it holds of every entity they produce from one for which it
    holds. *)
Lemma parse_keeps_streamless (fm : VlFileMeta) (optarg : option string) :
  inactive_streamless (snd (vl_file_meta_parse fm optarg)).
Proof. intros H; rewrite parse_active in H; discriminate. Qed.

Lemma close_keeps_streamless (fm : VlFileMeta) (fs : gmap string (list ascii)) :
  inactive_streamless (fst (vl_file_meta_close fm fs)).
Proof. rewrite close_releases; intros _; reflexivity. Qed.

Lemma open_keeps_streamless
  (fm : VlFileMeta) (basename mode : string) (fs : gmap string (list ascii)) :
  inactive_streamless fm ->
  inactive_streamless (snd (fst (vl_file_meta_open fm basename mode fs))).
Proof.
  unfold inactive_streamless, vl_file_meta_open.
  destruct (active fm) eqn:Ha; simpl negb; cbv iota.
  - intros _ Hr; exfalso; revert Hr.
    destruct (vl_string_replace_wildcard _ _ _ _ _ _) as [buf q].
    cbv zeta; simpl active.
    destruct (capacity <=? q); [simpl; rewrite Ha; discriminate|].
    rewrite Ha.
    destruct (fopen fs _ mode) as [[f|] fs']; simpl; rewrite Ha; discriminate.
  - intros H _; simpl; apply H; reflexivity.
Qed.

(** ** The scalar codec *)

(** C9. With a protocol that is neither [VL_PROT_ASCII] nor
    [VL_PROT_BINARY], each of the three codec functions ends in the failed
    assertion and returns no error code. *)
Theorem codec_asserts_protocol
  (P : platform) (fm : VlFileMeta) (x : Z) (b : ascii)
  (fs : gmap string (list ascii)) :
  protocol fm <> VL_PROT_ASCII ->
  protocol fm <> VL_PROT_BINARY ->
  vl_file_meta_put_double P fm x fs = AssertFailed /\
  vl_file_meta_put_uint8 fm b fs = AssertFailed /\
  vl_file_meta_get_double P fm fs = AssertFailed.
Proof.
  intros Ha Hb.
  unfold vl_file_meta_put_double, vl_file_meta_put_uint8,
    vl_file_meta_get_double.
  apply Z.eqb_neq in Ha, Hb; rewrite Ha, Hb; repeat split.
Qed.

Lemma codec_asserts_protocol_witness :
  protocol fm_no_protocol <> VL_PROT_ASCII /\
  protocol fm_no_protocol <> VL_PROT_BINARY /\
  vl_file_meta_put_double little_host fm_no_protocol one fs_img
    = AssertFailed /\
  vl_file_meta_put_uint8 fm_no_protocol "A" fs_img = AssertFailed /\
  vl_file_meta_get_double little_host fm_no_protocol fs_img = AssertFailed.
Proof.
  assert (Ha : protocol fm_no_protocol <> VL_PROT_ASCII) by discriminate.
  assert (Hb : protocol fm_no_protocol <> VL_PROT_BINARY) by discriminate.
  split; [exact Ha|]. split; [exact Hb|].
  exact (codec_asserts_protocol little_host fm_no_protocol one "A" fs_img
           Ha Hb).
Defined.

(** What the C library returns for a write that completes, and for one
    that does not. *)
Lemma fwrite_result (bs : list ascii) (f : FILE) (fs : gmap string (list ascii)) :
  fwrite bs f fs =
    match stream_write bs f fs with
    | Some (f', fs') => (1, f', fs')
    | None => (0, set_err f, fs)
    end.
Proof. reflexivity. Qed.

Lemma stream_write_complete
  (bs : list ascii) (f : FILE) (fs : gmap string (list ascii)) :
  is_Some (stream_write bs f fs) <-> f_writable f = true.
Proof.
  unfold stream_write; destruct (f_writable f); split; intros H;
    try reflexivity; try discriminate; [eexists; reflexivity|].
  destruct H; discriminate.
Qed.

(** [fprintf] of a text that ends in a space never returns 0. *)
Lemma alloc_if_fprintf (text : list ascii) (f : FILE) (fs : gmap string (list ascii)) :
  alloc_if (fst (fst (fprintf (text ++ [" "%char]) f fs))) = VL_ERR_ALLOC.
Proof.
  unfold fprintf.
  destruct (stream_write _ f fs) as [[f' fs']|]; [|reflexivity].
  simpl fst. rewrite length_app; simpl length.
  unfold alloc_if.
  destruct (Z.eqb_spec (Z.of_nat (length text + 1)) 0) as [E|_];
    [lia|reflexivity].
Qed.

(** [fscanf] assigns nothing unless it returns 1. *)
Lemma fscanf_lg_failed
  (P : platform) (f f' : FILE) (fs : gmap string (list ascii))
  (n : Z) (x : option Z) :
  fscanf_lg P f fs = (n, x, f') -> n < 1 -> x = None.
Proof.
  unfold fscanf_lg.
  destruct (f_readable f); [|intros [= <- <- <-]; reflexivity].
  cbv zeta.
  destruct (skip_space _) as [|c rest]; [intros [= <- <- <-]; reflexivity|].
  destruct (scan_lg P _) as [v used|used]; intros [= <- <- <-];
    [lia|reflexivity].
Qed.

(** Unfolding a codec function on an entity whose stream and protocol are
    known. *)
Ltac codec_on Hopen Hprot :=
  unfold vl_file_meta_put_double, vl_file_meta_put_uint8,
    vl_file_meta_get_double;
  rewrite Hopen, Hprot; simpl.

Section OpenEntity.

(** An entity [fm] that holds the stream [f], on a platform [P] and a file
    system [fs]. *)
Variables (P : platform) (fm : VlFileMeta) (f : FILE).
Variable fs : gmap string (list ascii).
Hypothesis Hopen : file fm = Some f.

(** The error code of the two put functions: a binary write that
    completes is answered with [VL_ERR_ALLOC], one that does not complete
    with [VL_ERR_OK]; an ascii write is answered with [VL_ERR_ALLOC]
    either way. *)
Lemma put_double_binary_code (x : Z) :
  protocol fm = VL_PROT_BINARY ->
  vl_file_meta_put_double P fm x fs =
    match stream_write (wire_bytes P x) f fs with
    | Some (f', fs') => Returned (VL_ERR_ALLOC, set_file fm (Some f'), fs')
    | None => Returned (VL_ERR_OK, set_file fm (Some (set_err f)), fs)
    end.
Proof.
  intros Hp; codec_on Hopen Hp; unfold fwrite, wire_bytes.
  destruct (stream_write _ f fs) as [[f' fs']|]; reflexivity.
Qed.

Lemma put_uint8_binary_code (x : ascii) :
  protocol fm = VL_PROT_BINARY ->
  vl_file_meta_put_uint8 fm x fs =
    match stream_write [x] f fs with
    | Some (f', fs') => Returned (VL_ERR_ALLOC, set_file fm (Some f'), fs')
    | None => Returned (VL_ERR_OK, set_file fm (Some (set_err f)), fs)
    end.
Proof.
  intros Hp; codec_on Hopen Hp; unfold fwrite.
  destruct (stream_write _ f fs) as [[f' fs']|]; reflexivity.
Qed.

Lemma put_double_ascii_code (x : Z) :
  protocol fm = VL_PROT_ASCII ->
  exists fm' fs',
    vl_file_meta_put_double P fm x fs = Returned (VL_ERR_ALLOC, fm', fs').
Proof.
  intros Hp; codec_on Hopen Hp.
  pose proof (alloc_if_fprintf (format_g P x) f fs) as H.
  destruct (fprintf _ f fs) as [[e f'] fs']; simpl in H; rewrite H.
  eexists _, _; reflexivity.
Qed.

Lemma put_uint8_ascii_code (x : ascii) :
  protocol fm = VL_PROT_ASCII ->
  exists fm' fs',
    vl_file_meta_put_uint8 fm x fs = Returned (VL_ERR_ALLOC, fm', fs').
Proof.
  intros Hp; codec_on Hopen Hp.
  pose proof (alloc_if_fprintf (format_d (N_of_ascii x)) f fs) as H.
  destruct (fprintf _ f fs) as [[e f'] fs']; simpl in H; rewrite H.
  eexists _, _; reflexivity.
Qed.

(** A failed read is answered according to the end-of-file indicator of
    the stream after it. *)
Lemma get_double_ascii_failed (f' : FILE) (n : Z) (x : option Z) :
  protocol fm = VL_PROT_ASCII ->
  fscanf_lg P f fs = (n, x, f') -> n < 1 ->
  vl_file_meta_get_double P fm fs =
    Returned (if feof f' then VL_ERR_EOF else VL_ERR_BAD_ARG,
              None, set_file fm (Some f')).
Proof.
  intros Hp Hr Hn; codec_on Hopen Hp; rewrite Hr; cbv zeta.
  apply Z.ltb_lt in Hn as Hb; rewrite Hb; unfold eof_or_bad_arg.
  rewrite (fscanf_lg_failed P f f' fs n x Hr Hn); reflexivity.
Qed.

Lemma get_double_binary_failed (f' : FILE) (n : Z) (y : list ascii) :
  protocol fm = VL_PROT_BINARY ->
  fread 8 f fs = (n, y, f') -> n < 1 ->
  vl_file_meta_get_double P fm fs =
    Returned (if feof f' then VL_ERR_EOF else VL_ERR_BAD_ARG,
              None, set_file fm (Some f')).
Proof.
  intros Hp Hr Hn; codec_on Hopen Hp; rewrite Hr; cbv zeta.
  apply Z.ltb_lt in Hn as Hb; rewrite Hb; reflexivity.
Qed.

(** C4. On an open entity with the ascii or the binary protocol, when the
    read that [vl_file_meta_get_double] performs fails (fewer than one item:
    [n < 1]), the answer is [VL_ERR_EOF] if the end-of-file indicator of
    the stream is set after that read and [VL_ERR_BAD_ARG] if it is not; no
    datum is delivered. *)
Theorem get_double_failure :
  (protocol fm = VL_PROT_ASCII ->
   forall (n : Z) (x : option Z) (f' : FILE),
     fscanf_lg P f fs = (n, x, f') -> n < 1 ->
     vl_file_meta_get_double P fm fs =
       Returned (if feof f' then VL_ERR_EOF else VL_ERR_BAD_ARG,
                 None, set_file fm (Some f'))) /\
  (protocol fm = VL_PROT_BINARY ->
   forall (n : Z) (y : list ascii) (f' : FILE),
     fread 8 f fs = (n, y, f') -> n < 1 ->
     vl_file_meta_get_double P fm fs =
       Returned (if feof f' then VL_ERR_EOF else VL_ERR_BAD_ARG,
                 None, set_file fm (Some f'))).
Proof.
  split; intros Hp n x f' Hr Hn.
  - exact (get_double_ascii_failed f' n x Hp Hr Hn).
  - exact (get_double_binary_failed f' n x Hp Hr Hn).
Qed.

(** The read that succeeds is answered with [VL_ERR_OK] and its datum. *)
Lemma get_double_binary_ok (f' : FILE) (y : list ascii) :
  protocol fm = VL_PROT_BINARY ->
  fread 8 f fs = (1, y, f') ->
  vl_file_meta_get_double P fm fs =
    Returned (VL_ERR_OK,
              Some (double_of_mem (host P) (vl_adapt_endianness_8 (host P) y)),
              set_file fm (Some f')).
Proof. intros Hp Hr; codec_on Hopen Hp; rewrite Hr; reflexivity. Qed.

(** The two failures of a binary read in the stream model: past the last
    complete record of a readable stream the answer is [VL_ERR_EOF]; on a
    stream that gives no input (and is not at its end) it is
    [VL_ERR_BAD_ARG]. Both reads return 0 items. *)
Lemma get_double_binary_short :
  protocol fm = VL_PROT_BINARY ->
  f_readable f = true ->
  (length (drop (f_pos f) (file_data fs f)) < 8)%nat ->
  exists fm',
    vl_file_meta_get_double P fm fs = Returned (VL_ERR_EOF, None, fm').
Proof.
  intros Hp Hr Hl.
  destruct (fread 8 f fs) as [[n y] f'] eqn:E.
  assert (n = 0 /\ f_eof f' = true) as [-> He].
  { revert E; unfold fread; rewrite Hr.
    destruct (Nat.leb_spec 8 (length (drop (f_pos f) (file_data fs f))));
      [lia|].
    intros [= <- <- <-]; split; [reflexivity|].
    unfold advance; simpl; apply orb_true_r. }
  rewrite (get_double_binary_failed f' 0 y Hp E) by lia.
  unfold feof; rewrite He; eexists; reflexivity.
Qed.

Lemma get_double_binary_no_input :
  protocol fm = VL_PROT_BINARY ->
  f_readable f = false -> f_eof f = false ->
  exists fm',
    vl_file_meta_get_double P fm fs = Returned (VL_ERR_BAD_ARG, None, fm').
Proof.
  intros Hp Hr He.
  assert (E : fread 8 f fs = (0, [], set_err f))
    by (unfold fread; rewrite Hr; reflexivity).
  rewrite (get_double_binary_failed _ 0 [] Hp E) by lia.
  unfold feof, set_err; simpl; rewrite He; eexists; reflexivity.
Qed.

(** The two failures of an ascii read: when only white space is left the
    answer is [VL_ERR_EOF]; when a token is there that is no number, and
    the stream is not at its end after the mismatch, it is
    [VL_ERR_BAD_ARG]. *)
Lemma get_double_ascii_exhausted :
  protocol fm = VL_PROT_ASCII ->
  f_readable f = true ->
  skip_space (drop (f_pos f) (file_data fs f)) = [] ->
  exists fm',
    vl_file_meta_get_double P fm fs = Returned (VL_ERR_EOF, None, fm').
Proof.
  intros Hp Hr Hs.
  destruct (fscanf_lg P f fs) as [[n x] f'] eqn:E.
  assert (n = -1 /\ f_eof f' = true) as [-> He].
  { revert E; unfold fscanf_lg; rewrite Hr; cbv zeta; rewrite Hs.
    intros [= <- <- <-]; split; [reflexivity|].
    unfold advance; simpl; apply orb_true_r. }
  rewrite (get_double_ascii_failed f' (-1) x Hp E) by lia.
  unfold feof; rewrite He; eexists; reflexivity.
Qed.

Lemma get_double_ascii_malformed (used : nat) :
  protocol fm = VL_PROT_ASCII ->
  f_readable f = true -> f_eof f = false ->
  let rest := skip_space (drop (f_pos f) (file_data fs f)) in
  scan_lg P rest = ScanFail used -> (used < length rest)%nat ->
  exists fm',
    vl_file_meta_get_double P fm fs = Returned (VL_ERR_BAD_ARG, None, fm').
Proof.
  intros Hp Hr He rest Hs Hu.
  destruct (fscanf_lg P f fs) as [[n x] f'] eqn:E.
  assert (n = 0 /\ f_eof f' = false) as [-> He'].
  { revert E; unfold fscanf_lg; rewrite Hr; cbv zeta; fold rest.
    destruct rest as [|c rest'] eqn:Er; [simpl in Hu; lia|].
    rewrite Hs. intros [= <- <- <-]; split; [reflexivity|].
    unfold advance; cbn [f_eof]; rewrite He; cbn [orb].
    exact (proj2 (Nat.leb_gt (length (c :: rest')) used) Hu). }
  rewrite (get_double_ascii_failed f' 0 x Hp E) by lia.
  unfold feof; rewrite He'; eexists; reflexivity.
Qed.

End OpenEntity.

Lemma get_double_failure_witness :
  file fm_reading = Some in_stream /\
  protocol fm_reading = VL_PROT_BINARY /\
  fread 8 in_stream fs_img = (0, [], advance in_stream 0 true) /\
  vl_file_meta_get_double big_host fm_reading fs_img =
    Returned (VL_ERR_EOF, None,
              set_file fm_reading (Some (advance in_stream 0 true))).
Proof.
  assert (Hr : fread 8 in_stream fs_img = (0, [], advance in_stream 0 true))
    by (vm_compute; reflexivity).
  split; [reflexivity|]. split; [reflexivity|]. split; [exact Hr|].
  exact (proj2 (get_double_failure big_host fm_reading in_stream fs_img
                  eq_refl)
           eq_refl 0 [] (advance in_stream 0 true) Hr eq_refl).
Defined.

(** C1, on the code. The binary entity writes the double 1.0 and the byte
    ['A'] to a stream open for output: the bytes reach the file, and the
    answer is [VL_ERR_ALLOC]. On a stream that takes no output the write
    does not complete, and the answer is [VL_ERR_OK]. *)
Theorem put_answers_alloc_on_success :
  (exists fm' fs',
      vl_file_meta_put_double little_host fm_writing one fs_img
        = Returned (VL_ERR_ALLOC, fm', fs') /\
      fs' !! "img.descr" = Some (map byte_of_Z [0x3F; 0xF0; 0; 0; 0; 0; 0; 0]))
  /\
  (exists fm' fs',
      vl_file_meta_put_uint8 fm_writing "A" fs_img
        = Returned (VL_ERR_ALLOC, fm', fs') /\
      fs' !! "img.descr" = Some ["A"%char])
  /\
  vl_file_meta_put_double little_host fm_reading one fs_img
    = Returned (VL_ERR_OK, set_file fm_reading (Some (set_err in_stream)),
                fs_img)
  /\
  vl_file_meta_put_uint8 fm_reading "A" fs_img
    = Returned (VL_ERR_OK, set_file fm_reading (Some (set_err in_stream)),
                fs_img).
Proof.
  split; [|split; [|split]].
  - rewrite (put_double_binary_code little_host fm_writing out_stream fs_img
               eq_refl one eq_refl).
    simpl. eexists _, _; split; [reflexivity|]. vm_compute; reflexivity.
  - rewrite (put_uint8_binary_code fm_writing out_stream fs_img
               eq_refl "A" eq_refl).
    simpl. eexists _, _; split; [reflexivity|]. vm_compute; reflexivity.
  - rewrite (put_double_binary_code little_host fm_reading in_stream fs_img
               eq_refl one eq_refl).
    reflexivity.
  - rewrite (put_uint8_binary_code fm_reading in_stream fs_img
               eq_refl "A" eq_refl).
    reflexivity.
Qed.

(** ** The binary wire format *)

Lemma Z_of_byte_of_Z (z : Z) : Z_of_byte (byte_of_Z z) = z mod 256.
Proof.
  unfold Z_of_byte, byte_of_Z.
  pose proof (Z.mod_pos_bound z 256 eq_refl) as Hb.
  rewrite N_ascii_embedding by lia.
  apply Z2N.id; lia.
Qed.

Lemma length_le_bytes (n : nat) (v : Z) : length (le_bytes n v) = n.
Proof. revert v; induction n as [|n IH]; intros v; simpl; congruence. Qed.

(** Reading back the [n] low-order bytes gives the value modulo
    [256 ^ n]. *)
Lemma le_value_le_bytes (n : nat) (v : Z) :
  le_value (le_bytes n v) = v mod 256 ^ Z.of_nat n.
Proof.
  revert v; induction n as [|n IH]; intros v.
  - simpl; rewrite Z.mod_1_r; reflexivity.
  - cbn [le_bytes le_value]. rewrite Z_of_byte_of_Z, IH.
    rewrite Nat2Z.inj_succ, Z.pow_succ_r by lia.
    symmetry; apply Z.rem_mul_r; [lia|].
    apply Z.pow_pos_nonneg; lia.
Qed.

(** One wire byte order: whatever the host, the bytes written are those
    of the datum, most significant first. *)
Lemma wire_bytes_fixed (P : platform) (x : Z) :
  wire_bytes P x = rev (le_bytes 8 x).
Proof.
  unfold wire_bytes, vl_adapt_endianness_8, mem_of_double.
  destruct (host P); simpl endianness_eqb; cbv iota;
    [reflexivity|].
  reflexivity.
Qed.

Lemma length_wire_bytes (P : platform) (x : Z) : length (wire_bytes P x) = 8%nat.
Proof. rewrite wire_bytes_fixed, length_rev; apply length_le_bytes. Qed.

(** The normalisation on the reading host undoes that of the writing
    host, whatever the two byte orders. *)
Lemma wire_bytes_decoded (Pw Pr : platform) (x : Z) :
  is_double x ->
  double_of_mem (host Pr) (vl_adapt_endianness_8 (host Pr) (wire_bytes Pw x))
    = x.
Proof.
  intros Hx; rewrite wire_bytes_fixed.
  unfold vl_adapt_endianness_8, double_of_mem.
  destruct (host Pr); simpl endianness_eqb; cbv iota;
    rewrite rev_involutive, le_value_le_bytes;
    apply Z.mod_small; exact Hx.
Qed.

(** ** Writing and reading back *)

Lemma pwrite_end (bs c : list ascii) : pwrite (length c) bs c = c ++ bs.
Proof.
  unfold pwrite.
  rewrite take_ge, Nat.sub_diag, drop_ge by lia.
  simpl; rewrite app_nil_r; reflexivity.
Qed.

(** Output at the end of the file appends. *)
Lemma stream_write_end
  (bs c : list ascii) (f : FILE) (fs : gmap string (list ascii)) :
  f_writable f = true -> f_append f = false ->
  f_pos f = length c -> fs !! f_path f = Some c ->
  stream_write bs f fs =
    Some (advance f (length c + length bs) false,
          <[f_path f := c ++ bs]> fs).
Proof.
  intros Hw Ha Hp Hc; unfold stream_write, file_data.
  rewrite Hw, Ha, Hp, Hc; simpl; rewrite pwrite_end; reflexivity.
Qed.

(** The loop of binary writes appends the data in the wire byte order,
    every call answering [VL_ERR_ALLOC]. *)
Lemma put_doubles_binary (P : platform) (xs : list Z) :
  forall (fm : VlFileMeta) (f : FILE) (fs : gmap string (list ascii))
         (c : list ascii),
    file fm = Some f -> protocol fm = VL_PROT_BINARY ->
    f_writable f = true -> f_append f = false ->
    f_pos f = length c -> fs !! f_path f = Some c ->
    exists fm' fs',
      put_doubles P fm xs fs
        = Returned (map (fun _ => VL_ERR_ALLOC) xs, fm', fs') /\
      fs' !! f_path f = Some (c ++ concat (map (wire_bytes P) xs)).
Proof.
  induction xs as [|x xs IH]; intros fm f fs c Hf Hp Hw Ha Hpos Hc.
  - exists fm, fs; split; [reflexivity|].
    simpl; rewrite app_nil_r; exact Hc.
  - cbn [put_doubles].
    rewrite (put_double_binary_code P fm f fs Hf x Hp).
    rewrite (stream_write_end _ c f fs Hw Ha Hpos Hc).
    set (f1 := advance f _ false). set (fs1 := <[f_path f := _]> fs).
    destruct (IH (set_file fm (Some f1)) f1 fs1 (c ++ wire_bytes P x))
      as (fm' & fs' & Hput & Hfs');
      try reflexivity; try assumption.
    + unfold f1; simpl; rewrite length_app; reflexivity.
    + unfold fs1, f1; simpl; apply lookup_insert_eq.
    + rewrite Hput. exists fm', fs'; split; [reflexivity|].
      unfold f1 in Hfs'; simpl in Hfs'; rewrite Hfs'.
      simpl; rewrite app_assoc; reflexivity.
Qed.

(** A binary read with a whole record ahead delivers its eight bytes. *)
Lemma fread_record
  (f : FILE) (fs : gmap string (list ascii)) (pre w tail : list ascii) :
  f_readable f = true -> f_pos f = length pre -> length w = 8%nat ->
  fs !! f_path f = Some (pre ++ w ++ tail) ->
  fread 8 f fs = (1, w, advance f (length pre + 8) false).
Proof.
  intros Hr Hp Hw Hc; unfold fread, file_data.
  rewrite Hr, Hc, Hp; simpl default.
  rewrite drop_app_length.
  destruct (Nat.leb_spec 8 (length (w ++ tail))) as [_|H];
    [|rewrite length_app in H; lia].
  rewrite (take_app_length' w tail 8) by (symmetry; exact Hw).
  reflexivity.
Qed.

(** The loop of binary reads delivers the data that were written, every
    call answering [VL_ERR_OK], whatever the byte orders of the writing
    and of the reading host. *)
Lemma get_doubles_binary (Pw Pr : platform) (xs : list Z) :
  Forall is_double xs ->
  forall (fm : VlFileMeta) (f : FILE) (fs : gmap string (list ascii))
         (pre : list ascii),
    file fm = Some f -> protocol fm = VL_PROT_BINARY ->
    f_readable f = true -> f_pos f = length pre ->
    fs !! f_path f = Some (pre ++ concat (map (wire_bytes Pw) xs)) ->
    exists fm',
      get_doubles Pr (length xs) fm fs
        = Returned (map (fun x => (VL_ERR_OK, Some x)) xs, fm').
Proof.
  induction 1 as [|x xs Hx Hxs IH]; intros fm f fs pre Hf Hp Hr Hpos Hc.
  - exists fm; reflexivity.
  - cbn [length get_doubles]. simpl in Hc.
    pose proof (fread_record f fs pre (wire_bytes Pw x) _ Hr Hpos
                  (length_wire_bytes Pw x) Hc) as Hread.
    rewrite (get_double_binary_ok Pr fm f fs Hf _ _ Hp Hread).
    rewrite (wire_bytes_decoded Pw Pr x Hx).
    set (f1 := advance f _ false).
    destruct (IH (set_file fm (Some f1)) f1 fs (pre ++ wire_bytes Pw x))
      as (fm' & Hget); try reflexivity; try assumption.
    + unfold f1; simpl; rewrite length_app, length_wire_bytes; reflexivity.
    + unfold f1; simpl; rewrite <- app_assoc; exact Hc.
    + rewrite Hget; exists fm'; reflexivity.
Qed.

(** [open] on an active entity whose resolved name fits the buffer. *)
Lemma open_active
  (fm : VlFileMeta) (basename mode : string) (fs : gmap string (list ascii)) :
  active fm = true ->
  let nm := substitute (pattern fm) "%" basename in
  (String.length nm < 1024)%nat ->
  vl_file_meta_open fm basename mode fs =
    (match fst (fopen fs nm mode) with
     | Some _ => VL_ERR_OK
     | None => VL_ERR_IO
     end,
     set_file (set_name fm nm) (fst (fopen fs nm mode)),
     snd (fopen fs nm mode)).
Proof.
  intros Ha nm Hl. unfold vl_file_meta_open, vl_string_replace_wildcard.
  rewrite Ha; simpl negb; cbv iota zeta; fold nm.
  assert (Hq : (capacity <=? vl_string_length nm) = false).
  { apply Z.leb_gt; unfold capacity, vl_string_length; lia. }
  rewrite Hq; cbv beta iota zeta. rewrite Hq.
  simpl active; rewrite Ha; simpl name.
  destruct (fopen fs nm mode) as [[f|] fs']; reflexivity.
Qed.

(** The stream and the file system that [fopen] delivers for the modes
    ["wb"] and ["rb"]. *)
Lemma fopen_wb_inv
  (fs fs' : gmap string (list ascii)) (nm : string) (f : FILE) :
  fopen fs nm "wb" = (Some f, fs') ->
  f = mkFILE nm false true false 0 false false /\ fs' = <[nm := []]> fs.
Proof.
  unfold fopen. destruct (_ || _); [discriminate|]. cbv iota beta.
  destruct (directory_exists fs (dirname nm)); [|discriminate].
  intros [= <- <-]; split; reflexivity.
Qed.

Lemma fopen_rb_inv
  (fs fs' : gmap string (list ascii)) (nm : string) (f : FILE) :
  fopen fs nm "rb" = (Some f, fs') ->
  f = mkFILE nm true false false 0 false false /\ fs' = fs.
Proof.
  unfold fopen. destruct (_ || _); [discriminate|]. cbv iota beta.
  destruct (fs !! nm); [|discriminate].
  intros [= <- <-]; split; reflexivity.
Qed.

(** An [open] that returns [VL_ERR_OK] on an active entity has stored the
    resolved name and the stream that [fopen] delivered for it. *)
Lemma open_ok_inv
  (fm : VlFileMeta) (basename mode : string) (fs : gmap string (list ascii)) :
  active fm = true ->
  fst (fst (vl_file_meta_open fm basename mode fs)) = VL_ERR_OK ->
  let nm := substitute (pattern fm) "%" basename in
  exists (f : FILE) (fs' : gmap string (list ascii)),
    fopen fs nm mode = (Some f, fs') /\
    vl_file_meta_open fm basename mode fs
      = (VL_ERR_OK, set_file (set_name fm nm) (Some f), fs').
Proof.
  intros Ha Hok nm.
  destruct (Nat.le_gt_cases 1024 (String.length nm)) as [Hl|Hl].
  - exfalso; revert Hok.
    unfold vl_file_meta_open, vl_string_replace_wildcard.
    rewrite Ha; simpl negb; cbv iota zeta; fold nm.
    assert (Hq : (capacity <=? vl_string_length nm) = true)
      by (apply Z.leb_le; unfold capacity, vl_string_length; lia).
    rewrite Hq; cbv beta iota zeta. rewrite Hq. discriminate.
  - revert Hok. rewrite (open_active fm basename mode fs Ha Hl); fold nm.
    destruct (fopen fs nm mode) as [[f|] fs']; cbn [fst snd];
      [|discriminate].
    intros _; exists f, fs'; split; reflexivity.
Qed.

(** C5. The data [xs] are written with the binary protocol through one
    handle, which is closed, and read back through a handle opened afresh
    on the same file. When the [open] for writing succeeds, the writing
    goes through; and when the [open] for reading then succeeds, the reads
    deliver exactly [xs], each answered with [VL_ERR_OK], whatever the
    byte order of the writing host and that of the reading host. *)
Theorem binary_round_trip
  (Pw Pr : platform) (fmW fmR : VlFileMeta) (basename : string)
  (xs : list Z) (fs : gmap string (list ascii)) :
  active fmW = true -> active fmR = true ->
  protocol fmW = VL_PROT_BINARY -> protocol fmR = VL_PROT_BINARY ->
  pattern fmR = pattern fmW ->
  Forall is_double xs ->
  fst (fst (vl_file_meta_open fmW basename "wb" fs)) = VL_ERR_OK ->
  exists fs3 : gmap string (list ascii),
    write_doubles Pw fmW basename xs fs = Returned (VL_ERR_OK, fs3) /\
    (fst (fst (vl_file_meta_open fmR basename "rb" fs3)) = VL_ERR_OK ->
     read_doubles Pr fmR basename (length xs) fs3
       = Returned (VL_ERR_OK, map (fun x => (VL_ERR_OK, Some x)) xs) /\
     write_then_read Pw Pr fmW fmR basename xs fs
       = Returned (VL_ERR_OK, VL_ERR_OK,
                   map (fun x => (VL_ERR_OK, Some x)) xs)).
Proof.
  intros HaW HaR HpW HpR Hpat Hxs HokW.
  destruct (open_ok_inv fmW basename "wb" fs HaW HokW)
    as (fw & fs1 & HfW & HopenW).
  set (nm := substitute (pattern fmW) "%" basename) in *.
  destruct (fopen_wb_inv fs fs1 nm fw HfW) as [-> ->].
  set (fw := mkFILE nm false true false 0 false false) in *.
  destruct (put_doubles_binary Pw xs (set_file (set_name fmW nm) (Some fw))
              fw (<[nm := []]> fs) [])
    as (fmW2 & fs2 & Hput & Hfs2);
    try reflexivity; try assumption.
  { apply lookup_insert_eq. }
  simpl in Hfs2.
  assert (Hwrite : write_doubles Pw fmW basename xs fs
                   = Returned (VL_ERR_OK, fs2)).
  { unfold write_doubles. rewrite HopenW, Hput, close_releases.
    reflexivity. }
  exists fs2; split; [exact Hwrite|]. intros HokR.
  destruct (open_ok_inv fmR basename "rb" fs2 HaR HokR)
    as (fr & fs4 & HfR & HopenR).
  rewrite Hpat in HfR, HopenR; fold nm in HfR, HopenR.
  destruct (fopen_rb_inv fs2 fs4 nm fr HfR) as [-> ->].
  set (fr := mkFILE nm true false false 0 false false) in *.
  destruct (get_doubles_binary Pw Pr xs Hxs
              (set_file (set_name fmR nm) (Some fr)) fr fs2 [])
    as (fmR2 & Hget);
    try reflexivity; try assumption.
  assert (Hread : read_doubles Pr fmR basename (length xs) fs2
                  = Returned (VL_ERR_OK,
                              map (fun x => (VL_ERR_OK, Some x)) xs)).
  { unfold read_doubles. rewrite HopenR, Hget. reflexivity. }
  split; [exact Hread|].
  unfold write_then_read. rewrite Hwrite, Hread. reflexivity.
Qed.

Lemma binary_round_trip_witness :
  Forall is_double [one; minus_two] /\
  fst (fst (vl_file_meta_open fm_binary "img" "wb" ∅)) = VL_ERR_OK /\
  write_then_read little_host big_host fm_binary fm_binary "img"
                  [one; minus_two] ∅
    = Returned (VL_ERR_OK, VL_ERR_OK,
                [(VL_ERR_OK, Some one); (VL_ERR_OK, Some minus_two)]).
Proof.
  assert (Hd : Forall is_double [one; minus_two]).
  { repeat constructor; vm_compute; discriminate. }
  assert (H1 : fst (fst (vl_file_meta_open fm_binary "img" "wb" ∅))
               = VL_ERR_OK) by (vm_compute; reflexivity).
  split; [exact Hd|]. split; [exact H1|].
  destruct (binary_round_trip little_host big_host fm_binary fm_binary "img"
              [one; minus_two] ∅ eq_refl eq_refl eq_refl eq_refl eq_refl
              Hd H1) as (fs3 & Hw & Himp).
  apply Himp.
  vm_compute in Hw. injection Hw as <-.
  vm_compute; reflexivity.
Defined.

(** The first hypothesis is a real one: in a file system without the
    directory [nodir/] the [open] for writing returns [VL_ERR_IO] and
    creates nothing; with the directory it succeeds. *)
Example open_missing_directory :
  vl_file_meta_open fm_nodir "img" "wb" ∅
    = (VL_ERR_IO, set_name fm_nodir "nodir/img.descr", ∅) /\
  fst (fst (vl_file_meta_open fm_nodir "img" "wb" {[ "nodir/" := [] ]}))
    = VL_ERR_OK.
Proof. split; vm_compute; reflexivity. Qed.

(** The same run, and the run with the hosts exchanged, by evaluation;
    the file holds the sixteen bytes of the two data, most significant
    byte first. *)
Example round_trip_run :
  write_then_read big_host little_host fm_binary fm_binary "img"
                  [one; minus_two] ∅
    = Returned (VL_ERR_OK, VL_ERR_OK,
                [(VL_ERR_OK, Some one); (VL_ERR_OK, Some minus_two)]) /\
  (exists fm' fs',
      put_doubles little_host fm_writing [one; minus_two] fs_img
        = Returned ([VL_ERR_ALLOC; VL_ERR_ALLOC], fm', fs') /\
      fs' !! "img.descr"
        = Some (map byte_of_Z [0x3F; 0xF0; 0; 0; 0; 0; 0; 0;
                               0xC0; 0; 0; 0; 0; 0; 0; 0])).
Proof.
  split; [vm_compute; reflexivity|].
  eexists _, _; split; vm_compute; reflexivity.
Qed.

(** * Further properties of the code *)

(** ** Configuration *)

(** X1. Whatever the option string (or none), [vl_file_meta_parse] returns
    [VL_ERR_OK], [VL_ERR_BAD_ARG] or [VL_ERR_OVERFLOW] and no other code,
    leaves the entity active, and touches neither the current name nor
    the stream: an entity may be configured anew while it is open. *)
Theorem parse_frame (fm : VlFileMeta) (optarg : option string) :
  let r := vl_file_meta_parse fm optarg in
  (fst r = VL_ERR_OK \/ fst r = VL_ERR_BAD_ARG \/ fst r = VL_ERR_OVERFLOW) /\
  active (snd r) = true /\
  name (snd r) = name fm /\
  file (snd r) = file fm.
Proof.
  cbv zeta. destruct optarg as [s|]; [|simpl; auto].
  destruct (vl_string_parse_protocol s) as [arg prot] eqn:Hp.
  rewrite (parse_unfold fm s arg prot Hp).
  destruct (prot =? VL_PROT_UNKNOWN); [simpl; auto|]; cbv zeta.
  destruct ((prot =? VL_PROT_ASCII) || (prot =? VL_PROT_BINARY)),
    (0 <? vl_string_length arg), (capacity <=? vl_string_length arg);
    simpl; auto.
Qed.

(** X2. Parsing the same option string a second time changes nothing: the
    error code and the entity are those of the first parse. *)
Theorem parse_idempotent (fm : VlFileMeta) (optarg : option string) :
  vl_file_meta_parse (snd (vl_file_meta_parse fm optarg)) optarg
    = vl_file_meta_parse fm optarg.
Proof.
  destruct optarg as [s|]; [|destruct fm; reflexivity].
  destruct (vl_string_parse_protocol s) as [arg prot] eqn:Hp.
  rewrite !(parse_unfold _ s arg prot Hp).
  destruct (prot =? VL_PROT_UNKNOWN); [reflexivity|].
  cbv zeta.
  destruct ((prot =? VL_PROT_ASCII) || (prot =? VL_PROT_BINARY)),
    (0 <? vl_string_length arg), (capacity <=? vl_string_length arg);
    reflexivity.
Qed.

(** ** Opening and closing *)


Lemma open_keeps_config
  (fm : VlFileMeta) (basename mode : string) (fs : gmap string (list ascii)) :
  let fm' := snd (fst (vl_file_meta_open fm basename mode fs)) in
  active fm' = active fm /\ pattern fm' = pattern fm /\
  protocol fm' = protocol fm.
Proof.
  cbv zeta; unfold vl_file_meta_open.
  destruct (active fm) eqn:Ha; simpl negb; cbv iota; [|auto].
  destruct (vl_string_replace_wildcard _ _ _ _ _ _) as [buf q]; cbv zeta.
  destruct (capacity <=? q); [simpl; auto|].
  simpl active; rewrite Ha.
  destruct (fopen fs _ mode) as [[f|] fs']; simpl; auto.
Qed.



(** X4. On an active entity whose resolved name fits, [open] followed by
    [close] leaves the entity without a stream, with the resolved name
    stored and everything else as before, whether the stream could be
    opened or not; [close] itself changes no file. *)
Theorem open_close_cycle
  (fm : VlFileMeta) (basename mode : string) (fs : gmap string (list ascii)) :
  active fm = true ->
  let nm := substitute (pattern fm) "%" basename in
  (String.length nm < 1024)%nat ->
  let r := vl_file_meta_open fm basename mode fs in
  vl_file_meta_close (snd (fst r)) (snd r)
    = (set_file (set_name fm nm) None, snd r).
Proof.
  intros Ha nm Hl r; subst r.
  rewrite (open_active fm basename mode fs Ha Hl); fold nm; cbn [fst snd].
  rewrite close_releases; reflexivity.
Qed.

Lemma open_close_cycle_witness :
  vl_file_meta_close
    (snd (fst (vl_file_meta_open fm_binary "img" "wb" fs_img)))
    (snd (vl_file_meta_open fm_binary "img" "wb" fs_img))
  = (set_file (set_name fm_binary "img.descr") None,
     snd (vl_file_meta_open fm_binary "img" "wb" fs_img)).
Proof.
  apply (open_close_cycle fm_binary "img" "wb" fs_img eq_refl).
  apply Nat.ltb_lt; reflexivity.
Defined.

(** ** Sequences of operations *)

Lemma run_op_keeps_active (o : fm_op) (st : VlFileMeta * gmap string (list ascii)) :
  active (fst st) = true -> active (fst (run_op o st)) = true.
Proof.
  destruct st as [fm fs]; destruct o as [optarg|basename mode|]; cbn [run_op fst snd].
  - intros _; apply parse_active.
  - intros Ha.
    destruct (open_keeps_config fm basename mode fs) as (H & _); congruence.
  - intros Ha; rewrite close_releases; exact Ha.
Qed.

Lemma run_ops_cons
  (o : fm_op) (ops : list fm_op) (st : VlFileMeta * gmap string (list ascii)) :
  run_ops (o :: ops) st = run_ops ops (run_op o st).
Proof. reflexivity. Qed.

(** X5. No operation clears the [active] flag: after any sequence of
    parse, open and close calls the entity is active if it was active
    before or if the sequence contains a parse, whatever the arguments and
    whether the calls succeeded. *)
Theorem run_keeps_active
  (ops : list fm_op) (fm : VlFileMeta) (fs : gmap string (list ascii)) :
  active fm = true \/ (exists optarg, In (OpParse optarg) ops) ->
  active (fst (run_ops ops (fm, fs))) = true.
Proof.
  change fm with (fst (fm, fs)) at 1.
  generalize (fm, fs) as st; clear fm fs.
  induction ops as [|o ops IH]; intros st H; rewrite ?run_ops_cons.
  - destruct H as [H|[optarg []]]; exact H.
  - apply IH. destruct H as [H|[optarg [->|H]]].
    + left; apply run_op_keeps_active; exact H.
    + left; destruct st; apply parse_active.
    + right; exists optarg; exact H.
Qed.

Lemma run_keeps_active_witness :
  active fm_inactive = false /\
  active (fst (run_ops [OpOpen "img" "wb"; OpParse (Some "xml:foo"); OpClose]
                       (fm_inactive, fs_img))) = true.
Proof.
  split; [reflexivity|].
  apply (run_keeps_active
           [OpOpen "img" "wb"; OpParse (Some "xml:foo"); OpClose]
           fm_inactive fs_img).
  right; exists (Some "xml:foo"); right; left; reflexivity.
Defined.

Lemma run_op_keeps_streamless
  (o : fm_op) (st : VlFileMeta * gmap string (list ascii)) :
  inactive_streamless (fst st) -> inactive_streamless (fst (run_op o st)).
Proof.
  destruct st as [fm fs]; destruct o as [optarg|basename mode|]; cbn [run_op fst snd].
  - intros _; apply parse_keeps_streamless.
  - apply open_keeps_streamless.
  - intros _; apply close_keeps_streamless.
Qed.

(** X6. An entity that holds no stream while it is inactive stays so under
    any sequence of parse, open and close calls; and on the entity such a
    sequence ends in, while it is inactive, [open] and [close] do nothing
    and [open] returns [VL_ERR_OK]. *)
Theorem run_inactive_noop
  (ops : list fm_op) (fm : VlFileMeta) (fs : gmap string (list ascii))
  (basename mode : string) :
  inactive_streamless fm ->
  let st := run_ops ops (fm, fs) in
  inactive_streamless (fst st) /\
  (active (fst st) = false ->
   vl_file_meta_open (fst st) basename mode (snd st)
     = (VL_ERR_OK, fst st, snd st) /\
   vl_file_meta_close (fst st) (snd st) = (fst st, snd st)).
Proof.
  intros H st.
  assert (Hinv : inactive_streamless (fst st)).
  { subst st. change fm with (fst (fm, fs)) in H.
    revert H; generalize (fm, fs) as s; clear fm fs.
    induction ops as [|o ops IH]; intros s H; [exact H|].
    rewrite run_ops_cons; apply IH, run_op_keeps_streamless, H. }
  split; [exact Hinv|]. intros Ha; split.
  - unfold vl_file_meta_open; rewrite Ha; reflexivity.
  - unfold vl_file_meta_close; rewrite (Hinv Ha); reflexivity.
Qed.

Lemma run_inactive_noop_witness :
  inactive_streamless fm_inactive /\
  vl_file_meta_close
    (fst (run_ops [OpOpen "img" "wb"; OpClose] (fm_inactive, fs_img)))
    (snd (run_ops [OpOpen "img" "wb"; OpClose] (fm_inactive, fs_img)))
  = (fst (run_ops [OpOpen "img" "wb"; OpClose] (fm_inactive, fs_img)),
     snd (run_ops [OpOpen "img" "wb"; OpClose] (fm_inactive, fs_img))).
Proof.
  assert (H : inactive_streamless fm_inactive) by (intros _; reflexivity).
  split; [exact H|].
  exact (proj2 (proj2 (run_inactive_noop [OpOpen "img" "wb"; OpClose]
                         fm_inactive fs_img "img" "wb" H) eq_refl)).
Defined.

(** ** Reading a binary file to its end *)

(** At less than a record from the end of a readable stream, every read
    is answered with [VL_ERR_EOF], however often it is repeated. *)
Lemma get_doubles_at_end (Pr : platform) (k : nat) :
  forall (fm : VlFileMeta) (f : FILE) (fs : gmap string (list ascii)),
    file fm = Some f -> protocol fm = VL_PROT_BINARY ->
    f_readable f = true ->
    (length (drop (f_pos f) (file_data fs f)) < 8)%nat ->
    exists fm',
      get_doubles Pr k fm fs = Returned (repeat (VL_ERR_EOF, None) k, fm').
Proof.
  induction k as [|k IH]; intros fm f fs Hf Hp Hr Hl.
  - exists fm; reflexivity.
  - cbn [get_doubles repeat].
    set (avail := drop (f_pos f) (file_data fs f)) in *.
    set (f1 := advance f (f_pos f + length avail) true).
    assert (E : fread 8 f fs = (0, avail, f1)).
    { unfold fread; rewrite Hr; fold avail.
      destruct (Nat.leb_spec 8 (length avail)); [lia|reflexivity]. }
    rewrite (get_double_binary_failed Pr fm f fs Hf f1 0 avail Hp E) by lia.
    assert (He : feof f1 = true) by apply orb_true_r.
    rewrite He.
    destruct (IH (set_file fm (Some f1)) f1 fs) as (fm' & Hget);
      try reflexivity; try assumption.
    + unfold f1, file_data; cbn [f_pos f_path advance].
      rewrite length_drop. unfold avail, file_data; rewrite length_drop; lia.
    + rewrite Hget; exists fm'; reflexivity.
Qed.

Lemma get_doubles_prefix (Pw Pr : platform) (xs : list Z) (k : nat) :
  Forall is_double xs ->
  forall (fm : VlFileMeta) (f : FILE) (fs : gmap string (list ascii))
         (pre tail : list ascii),
    file fm = Some f -> protocol fm = VL_PROT_BINARY ->
    f_readable f = true -> f_pos f = length pre ->
    (length tail < 8)%nat ->
    fs !! f_path f = Some (pre ++ concat (map (wire_bytes Pw) xs) ++ tail) ->
    exists fm',
      get_doubles Pr (length xs + k) fm fs
        = Returned (map (fun x => (VL_ERR_OK, Some x)) xs
                      ++ repeat (VL_ERR_EOF, None) k, fm').
Proof.
  induction 1 as [|x xs Hx Hxs IH]; intros fm f fs pre tail Hf Hp Hr Hpos Ht Hc.
  - cbn [length map app Nat.add].
    apply (get_doubles_at_end Pr k fm f fs Hf Hp Hr).
    unfold file_data; rewrite Hc, Hpos; cbn [default concat map app id].
    rewrite drop_app_length; exact Ht.
  - cbn [length get_doubles Nat.add map app].
    cbn [map concat] in Hc. rewrite <- app_assoc in Hc.
    pose proof (fread_record f fs pre (wire_bytes Pw x) _ Hr Hpos
                  (length_wire_bytes Pw x) Hc) as Hread.
    rewrite (get_double_binary_ok Pr fm f fs Hf _ _ Hp Hread).
    rewrite (wire_bytes_decoded Pw Pr x Hx).
    set (f1 := advance f _ false).
    destruct (IH (set_file fm (Some f1)) f1 fs (pre ++ wire_bytes Pw x) tail)
      as (fm' & Hget); try reflexivity; try assumption.
    + unfold f1; simpl; rewrite length_app, length_wire_bytes; reflexivity.
    + unfold f1; cbn [f_path advance]; rewrite <- app_assoc; exact Hc.
    + rewrite Hget; exists fm'; reflexivity.
Qed.

(** X7. A binary file that holds the records of [xs], followed by less
    than one record of further bytes, is read from its start as [xs], each
    datum answered with [VL_ERR_OK]; every read after that is answered
    with [VL_ERR_EOF] and delivers nothing, however many follow. *)
Theorem get_doubles_to_eof
  (Pw Pr : platform) (xs : list Z) (tail : list ascii) (k : nat)
  (fm : VlFileMeta) (f : FILE) (fs : gmap string (list ascii)) :
  Forall is_double xs ->
  file fm = Some f -> protocol fm = VL_PROT_BINARY ->
  f_readable f = true -> f_pos f = 0%nat ->
  (length tail < 8)%nat ->
  fs !! f_path f = Some (concat (map (wire_bytes Pw) xs) ++ tail) ->
  exists fm',
    get_doubles Pr (length xs + k) fm fs
      = Returned (map (fun x => (VL_ERR_OK, Some x)) xs
                    ++ repeat (VL_ERR_EOF, None) k, fm').
Proof.
  intros Hxs Hf Hp Hr Hpos Ht Hc.
  exact (get_doubles_prefix Pw Pr xs k Hxs fm f fs [] tail
           Hf Hp Hr Hpos Ht Hc).
Qed.

Lemma get_doubles_to_eof_witness :
  exists fm',
    get_doubles little_host 3 fm_reading
      (<["img.descr" := wire_bytes big_host one ++ ["x"; "y"; "z"]%char]> fs_img)
    = Returned ([(VL_ERR_OK, Some one);
                 (VL_ERR_EOF, None); (VL_ERR_EOF, None)], fm').
Proof.
  apply (get_doubles_to_eof big_host little_host [one] ["x"; "y"; "z"]%char 2
           fm_reading in_stream
           (<["img.descr" := wire_bytes big_host one ++ ["x"; "y"; "z"]%char]> fs_img));
    try reflexivity.
  - repeat constructor; vm_compute; discriminate.
  - simpl; lia.
Defined.

(** ** Records and doubles *)

Lemma Z_of_byte_range (b : ascii) : 0 <= Z_of_byte b < 256.
Proof.
  unfold Z_of_byte. pose proof (N_ascii_bounded b). lia.
Qed.

Lemma byte_of_Z_low (b : ascii) (v : Z) :
  byte_of_Z (Z_of_byte b + 256 * v) = b.
Proof.
  unfold byte_of_Z. pose proof (Z_of_byte_range b) as Hb.
  rewrite (Z.mul_comm 256 v), Z.mod_add, Z.mod_small by lia.
  unfold Z_of_byte; rewrite N2Z.id; apply ascii_N_embedding.
Qed.

Lemma le_value_range (bs : list ascii) :
  0 <= le_value bs < 256 ^ Z.of_nat (length bs).
Proof.
  induction bs as [|b bs IH]; [simpl; lia|].
  cbn [le_value length]. pose proof (Z_of_byte_range b).
  rewrite Nat2Z.inj_succ, Z.pow_succ_r by lia. lia.
Qed.

(** The bytes of the value of [bs] are [bs]. *)
Lemma le_bytes_le_value (bs : list ascii) :
  le_bytes (length bs) (le_value bs) = bs.
Proof.
  induction bs as [|b bs IH]; [reflexivity|].
  cbn [le_value length le_bytes]. rewrite byte_of_Z_low. f_equal.
  pose proof (Z_of_byte_range b).
  rewrite (Z.mul_comm 256 (le_value bs)), Z.div_add, Z.div_small by lia.
  rewrite Z.add_0_l; exact IH.
Qed.

(** What a binary read makes of the bytes of a record, on any host. *)
Lemma record_decoded (P : platform) (w : list ascii) :
  double_of_mem (host P) (vl_adapt_endianness_8 (host P) w)
    = le_value (rev w).
Proof.
  unfold double_of_mem, vl_adapt_endianness_8.
  destruct (host P); reflexivity.
Qed.

Lemma fread_one_length
  (f f' : FILE) (fs : gmap string (list ascii)) (w : list ascii) :
  fread 8 f fs = (1, w, f') -> length w = 8%nat.
Proof.
  unfold fread. destruct (f_readable f); [|discriminate].
  destruct (Nat.leb_spec 8 (length (drop (f_pos f) (file_data fs f))));
    [|discriminate].
  intros [= <- _]. apply length_take_le; assumption.
Qed.

(** X8. Every record decodes to a double that encodes to that record: a
    binary read that gets its eight bytes [w] is answered with [VL_ERR_OK]
    and a datum in the range of a double, and writing this datum with the
    binary protocol, on any host, hands the same eight bytes [w] to the
    file. *)
Theorem record_reencoded
  (Pw Pr : platform) (fm : VlFileMeta) (f f' : FILE)
  (fs : gmap string (list ascii)) (w : list ascii) :
  file fm = Some f -> protocol fm = VL_PROT_BINARY ->
  fread 8 f fs = (1, w, f') ->
  exists x : Z,
    vl_file_meta_get_double Pr fm fs
      = Returned (VL_ERR_OK, Some x, set_file fm (Some f')) /\
    is_double x /\
    wire_bytes Pw x = w.
Proof.
  intros Hf Hp Hread.
  pose proof (fread_one_length f f' fs w Hread) as Hw.
  exists (le_value (rev w)).
  rewrite (get_double_binary_ok Pr fm f fs Hf f' w Hp Hread), record_decoded.
  split; [reflexivity|]. split.
  - pose proof (le_value_range (rev w)) as H.
    rewrite length_rev, Hw in H. exact H.
  - rewrite wire_bytes_fixed.
    replace 8%nat with (length (rev w)) by (rewrite length_rev; exact Hw).
    rewrite le_bytes_le_value; apply rev_involutive.
Qed.

Lemma record_reencoded_witness :
  exists x : Z,
    vl_file_meta_get_double big_host fm_reading
        (<["img.descr" := ["a"; "b"; "c"; "d"; "e"; "f"; "g"; "h"]%char]> fs_img)
      = Returned (VL_ERR_OK, Some x,
                  set_file fm_reading (Some (advance in_stream 8 false))) /\
    is_double x /\
    wire_bytes little_host x = ["a"; "b"; "c"; "d"; "e"; "f"; "g"; "h"]%char.
Proof.
  apply (record_reencoded little_host big_host fm_reading in_stream
           (advance in_stream 8 false)
           (<["img.descr" := ["a"; "b"; "c"; "d"; "e"; "f"; "g"; "h"]%char]> fs_img)
           ["a"; "b"; "c"; "d"; "e"; "f"; "g"; "h"]%char);
    vm_compute; reflexivity.
Defined.

(** ** Writing bytes *)

(** X9. The bytes written one after the other with the binary protocol,
    through a stream positioned at the end of its file, are appended to the
    file as they are and in their order; every call answers
    [VL_ERR_ALLOC]. *)
Theorem put_bytes_binary (bs : list ascii) :
  forall (fm : VlFileMeta) (f : FILE) (fs : gmap string (list ascii))
         (c : list ascii),
    file fm = Some f -> protocol fm = VL_PROT_BINARY ->
    f_writable f = true -> f_append f = false ->
    f_pos f = length c -> fs !! f_path f = Some c ->
    exists fm' fs',
      put_bytes fm bs fs
        = Returned (map (fun _ => VL_ERR_ALLOC) bs, fm', fs') /\
      fs' !! f_path f = Some (c ++ bs).
Proof.
  induction bs as [|b bs IH]; intros fm f fs c Hf Hp Hw Ha Hpos Hc.
  - exists fm, fs; split; [reflexivity|].
    rewrite app_nil_r; exact Hc.
  - cbn [put_bytes].
    rewrite (put_uint8_binary_code fm f fs Hf b Hp).
    rewrite (stream_write_end _ c f fs Hw Ha Hpos Hc).
    set (f1 := advance f _ false). set (fs1 := <[f_path f := _]> fs).
    destruct (IH (set_file fm (Some f1)) f1 fs1 (c ++ [b]))
      as (fm' & fs' & Hput & Hfs');
      try reflexivity; try assumption.
    + unfold f1; simpl; rewrite length_app; reflexivity.
    + unfold fs1, f1; simpl; apply lookup_insert_eq.
    + rewrite Hput. exists fm', fs'; split; [reflexivity|].
      unfold f1 in Hfs'; simpl in Hfs'; rewrite Hfs'.
      rewrite <- app_assoc; reflexivity.
Qed.

Lemma put_bytes_binary_witness :
  exists fm' fs',
    put_bytes fm_writing ["S"; "I"; "F"; "T"]%char fs_img
      = Returned ([VL_ERR_ALLOC; VL_ERR_ALLOC; VL_ERR_ALLOC; VL_ERR_ALLOC],
                  fm', fs') /\
    fs' !! "img.descr" = Some ["S"; "I"; "F"; "T"]%char.
Proof.
  apply (put_bytes_binary ["S"; "I"; "F"; "T"]%char
           fm_writing out_stream fs_img []); reflexivity.
Defined.

(** ** What the put functions leave alone *)

Lemma stream_write_frame
  (bs : list ascii) (f f' : FILE) (fs fs' : gmap string (list ascii)) :
  stream_write bs f fs = Some (f', fs') ->
  f_path f' = f_path f /\ f_readable f' = f_readable f /\
  f_writable f' = f_writable f /\ f_append f' = f_append f /\
  f_writable f = true /\
  (forall p : string, p <> f_path f -> fs' !! p = fs !! p).
Proof.
  unfold stream_write. destruct (f_writable f) eqn:Hw; [|discriminate].
  intros [= <- <-]; cbn [advance f_path f_readable f_writable f_append].
  repeat split; try assumption.
  intros p Hp; apply lookup_insert_ne; congruence.
Qed.

Lemma stream_write_touches
  (fm : VlFileMeta) (f : FILE) (fs : gmap string (list ascii))
  (bs : list ascii) (e1 e2 : vl_err) :
  file fm = Some f ->
  touches_only_stream fm fs
    match stream_write bs f fs with
    | Some (f', fs') => Returned (e1, set_file fm (Some f'), fs')
    | None => Returned (e2, set_file fm (Some (set_err f)), fs)
    end.
Proof.
  intros Hf. destruct (stream_write bs f fs) as [[f' fs']|] eqn:E;
    cbn [touches_only_stream set_file active pattern protocol name file];
    repeat (split; [reflexivity|]).
  - destruct (stream_write_frame bs f f' fs fs' E) as (H1 & H2 & H3 & H4 & H5 & H6).
    exists f, f'; repeat split; try assumption.
    intros Hw; congruence.
  - exists f, (set_err f); repeat split; try assumption; reflexivity.
Qed.

(** X10. A put that returns has changed nothing but its own stream and
    file: the configuration and the name of the entity are as before, the
    entity holds its stream, open on the same file in the same mode, every
    other file is untouched, and a stream that takes no output leaves the
    whole file system untouched. *)
Theorem put_touches_only_stream
  (P : platform) (fm : VlFileMeta) (x : Z) (b : ascii)
  (fs : gmap string (list ascii)) :
  touches_only_stream fm fs (vl_file_meta_put_double P fm x fs) /\
  touches_only_stream fm fs (vl_file_meta_put_uint8 fm b fs).
Proof.
  unfold vl_file_meta_put_double, vl_file_meta_put_uint8, fprintf, fwrite.
  destruct (protocol fm =? VL_PROT_ASCII);
    [|destruct (protocol fm =? VL_PROT_BINARY); [|split; exact I]];
    destruct (file fm) as [f|] eqn:Hf; try (split; exact I);
    cbv zeta; split.
  - pose proof (stream_write_touches fm f fs (format_g P x ++ [" "%char])
                  VL_ERR_ALLOC VL_ERR_ALLOC Hf) as H.
    destruct (stream_write _ f fs) as [[f' fs']|]; exact H.
  - pose proof (stream_write_touches fm f fs
                  (format_d (N_of_ascii b) ++ [" "%char])
                  VL_ERR_ALLOC VL_ERR_ALLOC Hf) as H.
    destruct (stream_write _ f fs) as [[f' fs']|]; exact H.
  - pose proof (stream_write_touches fm f fs
                  (vl_adapt_endianness_8 (host P) (mem_of_double (host P) x))
                  VL_ERR_ALLOC VL_ERR_ALLOC Hf) as H.
    destruct (stream_write _ f fs) as [[f' fs']|]; exact H.
  - pose proof (stream_write_touches fm f fs [b]
                  VL_ERR_ALLOC VL_ERR_ALLOC Hf) as H.
    destruct (stream_write _ f fs) as [[f' fs']|]; exact H.
Qed.

(** ** Error codes of the codec *)

(** X11. On an open entity with the ascii or the binary protocol, both put
    functions return, and with the same code: [VL_ERR_ALLOC] when the
    protocol is ascii or the stream takes output, [VL_ERR_OK] when the
    protocol is binary and the stream takes no output. *)
Theorem put_error_code
  (P : platform) (fm : VlFileMeta) (f : FILE) (x : Z) (b : ascii)
  (fs : gmap string (list ascii)) :
  file fm = Some f ->
  protocol fm = VL_PROT_ASCII \/ protocol fm = VL_PROT_BINARY ->
  let code :=
    if (protocol fm =? VL_PROT_ASCII) || f_writable f
    then VL_ERR_ALLOC else VL_ERR_OK in
  (exists fm' fs',
      vl_file_meta_put_double P fm x fs = Returned (code, fm', fs')) /\
  (exists fm' fs',
      vl_file_meta_put_uint8 fm b fs = Returned (code, fm', fs')).
Proof.
  intros Hf [Hp|Hp] code; subst code; rewrite Hp; cbn [Z.eqb orb].
  - split.
    + exact (put_double_ascii_code P fm f fs Hf x Hp).
    + exact (put_uint8_ascii_code fm f fs Hf b Hp).
  - change (VL_PROT_BINARY =? VL_PROT_ASCII) with false; cbn [orb].
    rewrite (put_double_binary_code P fm f fs Hf x Hp),
      (put_uint8_binary_code fm f fs Hf b Hp).
    unfold stream_write.
    destruct (f_writable f); split; eexists _, _; reflexivity.
Qed.

Lemma put_error_code_witness :
  (exists fm' fs',
      vl_file_meta_put_double little_host fm_reading one fs_img
        = Returned (VL_ERR_OK, fm', fs')) /\
  (exists fm' fs',
      vl_file_meta_put_uint8 fm_reading "A" fs_img
        = Returned (VL_ERR_OK, fm', fs')).
Proof.
  exact (put_error_code little_host fm_reading in_stream one "A" fs_img
           eq_refl (or_intror eq_refl)).
Defined.

Lemma fscanf_lg_cases
  (P : platform) (f f' : FILE) (fs : gmap string (list ascii))
  (n : Z) (x : option Z) :
  fscanf_lg P f fs = (n, x, f') ->
  (n = 1 /\ is_Some x) \/ (n < 1 /\ x = None).
Proof.
  unfold fscanf_lg.
  destruct (f_readable f); [|intros [= <- <- <-]; right; split; [lia|reflexivity]].
  cbv zeta.
  destruct (skip_space _) as [|c rest];
    [intros [= <- <- <-]; right; split; [lia|reflexivity]|].
  destruct (scan_lg P _) as [v used|used]; intros [= <- <- <-].
  - left; split; [reflexivity|eexists; reflexivity].
  - right; split; [lia|reflexivity].
Qed.

Lemma fread_cases
  (f f' : FILE) (fs : gmap string (list ascii)) (n : Z) (y : list ascii) :
  fread 8 f fs = (n, y, f') -> n = 1 \/ n = 0.
Proof.
  unfold fread. destruct (f_readable f); [|intros [= <- _ _]; right; reflexivity].
  destruct (8 <=? _)%nat; intros [= <- _ _]; [left|right]; reflexivity.
Qed.

(** X12. On an open entity with the ascii or the binary protocol,
    [vl_file_meta_get_double] returns [VL_ERR_OK], [VL_ERR_EOF] or
    [VL_ERR_BAD_ARG] and no other code, and it delivers a datum exactly
    when the code is [VL_ERR_OK]. *)
Theorem get_double_datum
  (P : platform) (fm : VlFileMeta) (f : FILE) (fs : gmap string (list ascii)) :
  file fm = Some f ->
  protocol fm = VL_PROT_ASCII \/ protocol fm = VL_PROT_BINARY ->
  exists (e : vl_err) (x : option Z) (fm' : VlFileMeta),
    vl_file_meta_get_double P fm fs = Returned (e, x, fm') /\
    ((e = VL_ERR_OK /\ is_Some x) \/
     ((e = VL_ERR_EOF \/ e = VL_ERR_BAD_ARG) /\ x = None)).
Proof.
  intros Hf [Hp|Hp].
  - destruct (fscanf_lg P f fs) as [[n x] f'] eqn:E.
    destruct (fscanf_lg_cases P f f' fs n x E) as [[-> Hx]|[Hn ->]].
    + exists VL_ERR_OK, x, (set_file fm (Some f')); split; [|left; auto].
      unfold vl_file_meta_get_double; rewrite Hf, Hp; simpl; rewrite E.
      reflexivity.
    + rewrite (get_double_ascii_failed P fm f fs Hf f' n None Hp E Hn).
      eexists _, _, _; split; [reflexivity|right; split; [|reflexivity]].
      destruct (feof f'); auto.
  - destruct (fread 8 f fs) as [[n y] f'] eqn:E.
    destruct (fread_cases f f' fs n y E) as [-> | ->].
    + rewrite (get_double_binary_ok P fm f fs Hf f' y Hp E).
      eexists _, _, _; split; [reflexivity|left; split; [reflexivity|]].
      eexists; reflexivity.
    + rewrite (get_double_binary_failed P fm f fs Hf f' 0 y Hp E) by lia.
      eexists _, _, _; split; [reflexivity|right; split; [|reflexivity]].
      destruct (feof f'); auto.
Qed.

Lemma get_double_datum_witness :
  exists (e : vl_err) (x : option Z) (fm' : VlFileMeta),
    vl_file_meta_get_double big_host fm_reading fs_img
      = Returned (e, x, fm') /\
    ((e = VL_ERR_OK /\ is_Some x) \/
     ((e = VL_ERR_EOF \/ e = VL_ERR_BAD_ARG) /\ x = None)).
Proof.
  exact (get_double_datum big_host fm_reading in_stream fs_img
           eq_refl (or_intror eq_refl)).
Defined.

(** ** Portability of the binary protocol *)

(** X13. With the binary protocol the host's byte order changes nothing:
    on two platforms, a put leaves the same bytes in the file and the same
    code, and a get delivers the same datum from the same bytes. *)
Theorem binary_codec_host_independent
  (P1 P2 : platform) (fm : VlFileMeta) (x : Z) (fs : gmap string (list ascii)) :
  protocol fm = VL_PROT_BINARY ->
  vl_file_meta_put_double P1 fm x fs = vl_file_meta_put_double P2 fm x fs /\
  vl_file_meta_get_double P1 fm fs = vl_file_meta_get_double P2 fm fs.
Proof.
  intros Hp; unfold vl_file_meta_put_double, vl_file_meta_get_double.
  rewrite Hp; simpl; split.
  - change (vl_adapt_endianness_8 (host P1) (mem_of_double (host P1) x))
      with (wire_bytes P1 x).
    change (vl_adapt_endianness_8 (host P2) (mem_of_double (host P2) x))
      with (wire_bytes P2 x).
    rewrite !wire_bytes_fixed; reflexivity.
  - destruct (file fm) as [f|]; [|reflexivity].
    destruct (fread 8 f fs) as [[n y] f']; cbv zeta.
    rewrite !record_decoded; reflexivity.
Qed.

Lemma binary_codec_host_independent_witness :
  vl_file_meta_put_double little_host fm_writing minus_two fs_img
    = vl_file_meta_put_double big_host fm_writing minus_two fs_img /\
  vl_file_meta_get_double little_host fm_writing fs_img
    = vl_file_meta_get_double big_host fm_writing fs_img.
Proof.
  exact (binary_codec_host_independent little_host big_host fm_writing
           minus_two fs_img eq_refl).
Defined.
